(** * thunder.utils.context: the ThunderContext loading wrapper

    A shallow embedding of [python/thunder/utils/context.py] and the
    properties of its dispatch logic.  The module is glue around external
    collaborators (the Spark context, [SeriesLoader], [ImagesLoader],
    [PreProcessor], [DataSets], [scipy.io.loadmat]); every call into one of
    them is an explicit node of a program tree, answered by a handler that
    stands for the outside world, and every [raise] statement of the module
    is a leaf of that tree. *)

From Stdlib Require Import ZArith List Ascii String Bool Lia.
From stdpp Require Import base option list strings gmap.

Local Open Scope string_scope.

(** ** Python values that pass through the module *)

(** The values that arguments such as [nkeys], [nvalues], [minPartitions]
    and [dims] (a tuple of ints) and the entries of a decoded JSON object can
    take.  The module never computes with them; it tests [nvalues is None]
    and hands the rest to the loaders. *)
Inductive pyval : Type :=
| PyNone
| PyBool (b : bool)
| PyInt (z : Z)
| PyStr (s : string)
| PyTuple (items : list Z).

(** [x is None] *)
Definition is_None (v : pyval) : bool :=
  match v with PyNone => true | _ => false end.

(** Truth value of an optional string argument ([if keyfile:], [if method:]):
    [None] and the empty string are false. *)
Definition truthy (o : option string) : bool :=
  match o with
  | None => false
  | Some EmptyString => false
  | Some (String _ _) => true
  end.

(** ** Exceptions *)

Inductive exn : Type :=
| ValueError (msg : string)
| NotImplementedError (msg : option string)
| IOError (msg : string)
| Exception (msg : string)
| KeyError (key : string)
| IndexError (msg : string)
| TypeError (msg : string)
| OtherError (name msg : string).

(** ** Strings *)

Module Str.

(** [str.lower] on a string of ASCII characters: the letters [A]..[Z] move
    to [a]..[z], every other character stays.  On other strings Python's
    lowercasing follows the Unicode tables (it takes the Kelvin sign to [k],
    for one), and this function is not a model of it: what is proved about
    arbitrary tags is stated for tags that are [is_ascii]. *)
Definition lower_ascii (c : ascii) : ascii :=
  let n := nat_of_ascii c in
  if (65 <=? n)%nat && (n <=? 90)%nat then ascii_of_nat (n + 32) else c.

Fixpoint lower (s : string) : string :=
  match s with
  | EmptyString => EmptyString
  | String c r => String (lower_ascii c) (lower r)
  end.


(** [s.startswith(p)] *)
Fixpoint startswith (p s : string) : bool :=
  match p, s with
  | EmptyString, _ => true
  | String a p', String b s' => if Ascii.eqb a b then startswith p' s' else false
  | String _ _, EmptyString => false
  end.

(** [p in s] for strings: [p] occurs as a contiguous substring of [s]. *)
Fixpoint contains (p s : string) : bool :=
  startswith p s ||
  match s with
  | EmptyString => false
  | String _ s' => contains p s'
  end.

(** [s.endswith("/")] *)
Fixpoint ends_with_slash (s : string) : bool :=
  match s with
  | EmptyString => false
  | String c EmptyString => Ascii.eqb c "/"%char
  | String _ r => ends_with_slash r
  end.

(** [os.path.join(a, b)] of [posixpath]. *)
Definition path_join (a b : string) : string :=
  if startswith "/" b then b
  else if String.eqb a "" || ends_with_slash a then a ++ b
  else a ++ "/" ++ b.

(** [x in (a, b, ...)] for a tuple of strings. *)
Definition mem (x : string) (t : list string) : bool :=
  existsb (String.eqb x) t.

End Str.

(** ** Arrays and distributed collections *)

(** An array element: the module moves elements around and never does
    arithmetic on them, so a floating-point element is kept as its bit
    pattern. *)
Inductive scalar : Type :=
| SInt (z : Z)
| SFloat (bits : Z).

(** A numpy array: its shape and its elements in row-major order. *)
Record ndarray : Type := mk_ndarray {
  shape : list nat;
  flat : list scalar
}.

(** [a.ndim] *)
Definition ndim (a : ndarray) : nat := length (shape a).

(** The sub-arrays along the first axis of an array of shape [n :: rest]:
    what iterating over the array yields, [n] items of shape [rest]. *)
Definition rows_of (n : nat) (rest : list nat) (elts : list scalar) : list ndarray :=
  let sz := fold_right Nat.mul 1%nat rest in
  map (fun i => mk_ndarray rest (firstn sz (skipn (i * sz) elts))) (seq 0 n).

(** A record key: a linear index, or the tuple made from a row of the key
    array. *)
Inductive pykey : Type :=
| KInt (i : Z)
| KTuple (items : list ndarray).

(** The engine's key-value collection, as the lazy description the driver
    holds: the records in order and the requested number of partitions. *)
Record RDD : Type := mk_RDD {
  records : list (pykey * ndarray);
  numSlices : pyval
}.

Definition keys (r : RDD) : list pykey := map fst (records r).
Definition values (r : RDD) : list ndarray := map snd (records r).

(** [rdd.mapValues(f)]: every value goes through [f], keys and partitioning
    stay. *)
Definition mapValues (f : ndarray -> ndarray) (r : RDD) : RDD :=
  mk_RDD (map (fun kv => (fst kv, f (snd kv))) (records r)) (numSlices r).

(** [numpy.arange(start, stop)] on integers. *)
Definition arange (start stop : Z) : list Z :=
  map (fun i => (start + Z.of_nat i)%Z) (seq 0 (Z.to_nat (stop - start))).

(** [zip(a, b)]: pairs up to the shorter argument. *)
Definition zip {A B} (a : list A) (b : list B) : list (A * B) := combine a b.

(** ** The outside world *)

Record SparkContext : Type := mk_SparkContext { master : string }.

(** [ThunderContext]: a wrapper holding the Spark context. *)
Record ThunderContext : Type := mk_ThunderContext { _sc : SparkContext }.

(** A loader object built by [SeriesLoader(...)] or [ImagesLoader(...)]. *)
Definition loader := nat.

(** The calls the module makes into its collaborators, indexed by the type
    of what they give back.  [sc_parallelize] is the engine's
    [sc.parallelize(c, numSlices)]; like every call it may answer with an
    exception.  [loadmat] gives the array variables of a file by name; the
    entries a real file's dictionary has besides them ([__header__],
    [__version__], [__globals__]) are not arrays and are not part of the
    answer. *)
Inductive Ext : Type -> Type :=
| SeriesLoader_loadConf (datafile conffile : string) : Ext (option (gmap string pyval))
| SeriesLoader_new (nkeys nvalues minPartitions : pyval) : Ext loader
| SeriesLoader_fromText (l : loader) (datafile : string) (sc : SparkContext) : Ext RDD
| SeriesLoader_fromBinary (l : loader) (datafile : string) (sc : SparkContext) : Ext RDD
| ImagesLoader_new (dims : pyval) : Ext loader
| ImagesLoader_fromStack (l : loader) (datafile : string) (sc : SparkContext) : Ext RDD
| ImagesLoader_fromTif (l : loader) (datafile : string) (sc : SparkContext) : Ext RDD
| ImagesLoader_fromPng (l : loader) (datafile : string) (sc : SparkContext) : Ext RDD
| DataSets_make (sc : SparkContext) (dataset : string) (opts : list (string * pyval)) : Ext RDD
| sc_parallelize (sc : SparkContext) (c : list (pykey * ndarray)) (numSlices : pyval)
    : Ext RDD
| sc_textFile (sc : SparkContext) (path : string) : Ext (list string)
| rdd_first (lines : list string) : Ext string
| json_loads (s : string) : Ext (gmap string pyval)
| asarray (v : pyval) : Ext ndarray
| loadmat (file : string) : Ext (gmap string ndarray)
| PreProcessor_new (method : string) : Ext (ndarray -> ndarray).

(** A call, as it is logged. *)
Inductive event : Type :=
| Called {X : Type} (c : Ext X).

(** The calls that make the engine read or compute: the loaders' reading
    methods and the methods of the Spark context and its collections. *)
Definition is_engine (e : event) : bool :=
  match e with
  | Called c =>
      match c with
      | SeriesLoader_fromText _ _ _ | SeriesLoader_fromBinary _ _ _
      | ImagesLoader_fromStack _ _ _ | ImagesLoader_fromTif _ _ _
      | ImagesLoader_fromPng _ _ _ | DataSets_make _ _ _
      | sc_parallelize _ _ _ | sc_textFile _ _ | rdd_first _ => true
      | _ => false
      end
  end.

(** ** Programs *)

(** A method body: it returns, raises, or calls a collaborator and goes on
    with the answer. *)
Inductive Prog (A : Type) : Type :=
| Ret (a : A)
| Raise (e : exn)
| Call {X : Type} (c : Ext X) (k : X -> Prog A).

Arguments Ret {A} a.
Arguments Raise {A} e.
Arguments Call {A X} c k.

Fixpoint bind {A B : Type} (p : Prog A) (f : A -> Prog B) : Prog B :=
  match p with
  | Ret a => f a
  | Raise e => Raise e
  | Call c k => Call c (fun x => bind (k x) f)
  end.

Definition call {X : Type} (c : Ext X) : Prog X := Call c Ret.

Declare Scope prog_scope.
Delimit Scope prog_scope with prog.
Notation "x <- p ;; q" := (bind p (fun x => q))
  (at level 100, p at next level, right associativity) : prog_scope.
Local Open Scope prog_scope.

(** [d[k]] on a dict. *)
Definition getitem {V : Type} (d : gmap string V) (k : string) : Prog V :=
  match d !! k with
  | Some v => Ret v
  | None => Raise (KeyError k)
  end.

(** Iterating over an array: the sub-arrays along the first axis. *)
Definition iterate (a : ndarray) : Prog (list ndarray) :=
  match shape a with
  | nil => Raise (TypeError "iteration over a 0-d array")
  | n :: rest => Ret (rows_of n rest (flat a))
  end.

(** [shape(a)[0]] *)
Definition shape0 (a : ndarray) : Prog nat :=
  match shape a with
  | nil => Raise (IndexError "tuple index out of range")
  | n :: _ => Ret n
  end.

Fixpoint mapP {A B : Type} (f : A -> Prog B) (l : list A) : Prog (list B) :=
  match l with
  | nil => Ret nil
  | x :: r => y <- f x ;; ys <- mapP f r ;; Ret (y :: ys)
  end.

(** ** The methods of [ThunderContext] *)

(** [preprocess(data, method=None)] *)
Definition preprocess (data : RDD) (method : option string) : Prog RDD :=
  match method with
  | Some (String _ _ as m) =>
      get <- call (PreProcessor_new m) ;;
      Ret (mapValues get data)
  | _ => Ret data
  end.

(** Default values of the keyword arguments of [loadSeries]. *)
Definition default_nkeys : pyval := PyInt 3.
Definition default_nvalues : pyval := PyNone.
Definition default_inputformat : string := "binary".
Definition default_minPartitions : pyval := PyNone.
Definition default_conffile : string := "conf.json".

Definition series_format_error (inputformat : string) : exn :=
  ValueError ("inputformat must be either 'text' or 'binary', got " ++ inputformat).

Definition missing_nvalues_error : exn :=
  ValueError "Must specify nvalues for binary input if not providing a configuration file".

Definition images_format_error (inputformat : string) : exn :=
  ValueError ("inputformat must be either 'stack', 'png', or 'tif', got " ++ inputformat).

(** [loadSeries(self, datafile, nkeys, nvalues, inputformat, minPartitions,
    conffile)] *)
Definition loadSeries (self : ThunderContext) (datafile : string)
    (nkeys nvalues : pyval) (inputformat : string) (minPartitions : pyval)
    (conffile : string) : Prog RDD :=
  if negb (Str.mem (Str.lower inputformat) ["text"; "binary"]) then
    Raise (series_format_error inputformat)
  else
    params <- call (SeriesLoader_loadConf datafile conffile) ;;
    ld <- match params with
          | None =>
              if String.eqb (Str.lower inputformat) "binary" && is_None nvalues then
                Raise missing_nvalues_error
              else
                call (SeriesLoader_new nkeys nvalues minPartitions)
          | Some params =>
              k <- getitem params "nkeys" ;;
              v <- getitem params "nvalues" ;;
              call (SeriesLoader_new k v minPartitions)
          end ;;
    if String.eqb (Str.lower inputformat) "text" then
      call (SeriesLoader_fromText ld datafile (_sc self))
    else
      call (SeriesLoader_fromBinary ld datafile (_sc self)).

(** [loadImages(self, datafile, dims=None, inputformat='stack')] *)
Definition loadImages (self : ThunderContext) (datafile : string)
    (dims : pyval) (inputformat : string) : Prog RDD :=
  if negb (Str.mem (Str.lower inputformat) ["stack"; "png"; "tif"]) then
    Raise (images_format_error inputformat)
  else
    ld <- call (ImagesLoader_new dims) ;;
    if String.eqb (Str.lower inputformat) "stack" then
      call (ImagesLoader_fromStack ld datafile (_sc self))
    else if String.eqb (Str.lower inputformat) "tif" then
      call (ImagesLoader_fromTif ld datafile (_sc self))
    else
      call (ImagesLoader_fromPng ld datafile (_sc self)).

(** [makeExample(self, dataset, **opts)] *)
Definition makeExample (self : ThunderContext) (dataset : string)
    (opts : list (string * pyval)) : Prog RDD :=
  call (DataSets_make (_sc self) dataset opts).

Section Methods.

(** [os.path.dirname(os.path.realpath(__file__))]: the directory the
    module is installed in. *)
Variable module_dir : string.

(** [loadExample(self, dataset)] *)
Definition loadExample (self : ThunderContext) (dataset : string) : Prog RDD :=
  let path := module_dir in
  if String.eqb dataset "iris" then
    loadSeries self (Str.path_join path "data/iris.txt") default_nkeys
      default_nvalues "text" (PyInt 1) default_conffile
  else if String.eqb dataset "fish" then
    loadSeries self (Str.path_join path "data/fish.txt") default_nkeys
      default_nvalues "text" (PyInt 1) default_conffile
  else
    Raise (NotImplementedError (Some ("Dataset '" ++ dataset ++ "' not found"))).

End Methods.

(** [loadExampleEC2(self, dataset)] *)
Definition loadExampleEC2 (self : ThunderContext) (dataset : string)
    : Prog (RDD * ndarray) :=
  if negb (Str.contains "ec" (master (_sc self))) then
    Raise (Exception "must be running on EC2 to load this example data sets")
  else if String.eqb dataset "zebrafish-optomotor-response" then
    let path := "zebrafish.datasets/optomotor-response/1/" in
    data <- loadSeries self ("s3n://" ++ path ++ "data/dat_plane*.txt")
              default_nkeys default_nvalues "text" (PyInt 1000) default_conffile ;;
    paramfile <- call (sc_textFile (_sc self) ("s3n://" ++ path ++ "params.json")) ;;
    line <- call (rdd_first paramfile) ;;
    params <- call (json_loads line) ;;
    trials <- getitem params "trials" ;;
    modelfile <- call (asarray trials) ;;
    Ret (data, modelfile)
  else
    Raise (NotImplementedError (Some ("dataset '" ++ dataset ++ "' not availiable"))).

(** [loadBinaryLocal(self, datafile, nvalues, nkeys, format, keyfile=None,
    method=None)] *)
Definition loadBinaryLocal (self : ThunderContext) (datafile : string)
    (nvalues nkeys : pyval) (format : string) (keyfile method : option string)
    : Prog RDD :=
  Raise (NotImplementedError None).

(** [loadArrayLocal(self, values, keys=None, method=None)] *)
Definition loadArrayLocal (self : ThunderContext) (vals : ndarray)
    (ks : option ndarray) (method : option string) : Prog RDD :=
  Raise (NotImplementedError None).

(** [loadMatLocal(self, datafile, varname, keyfile=None, filter=None,
    minPartitions=1)] *)
Definition loadMatLocal (self : ThunderContext) (datafile varname : string)
    (keyfile filter : option string) (minPartitions : pyval) : Prog RDD :=
  vars <- call (loadmat datafile) ;;
  data <- getitem vars varname ;;
  if (2 <? ndim data)%nat then
    Raise (IOError "input data must be one or two dimensional")
  else
    ks <- match keyfile with
          | Some (String _ _ as kf) =>
              kvars <- call (loadmat kf) ;;
              karr <- getitem kvars "keys" ;;
              krows <- iterate karr ;;
              mapP (fun x => t <- iterate x ;; Ret (KTuple t)) krows
          | _ =>
              n <- shape0 data ;;
              Ret (map KInt (arange 1 (Z.of_nat n + 1)))
          end ;;
    rows <- iterate data ;;
    rdd <- call (sc_parallelize (_sc self) (zip ks rows) minPartitions) ;;
    preprocess rdd filter.

(** ** Running a program against the outside world *)

(** How a call ends. *)
Inductive outcome (A : Type) : Type :=
| Returned (a : A)
| Raised (e : exn)
| Failed (e : exn).

Arguments Returned {A} a.
Arguments Raised {A} e.
Arguments Failed {A} e.

Section Run.

(** The outside world: a state and the way every call is answered in it,
    with a value or with an exception of the collaborator's. *)
Variable World : Type.
Variable answer : forall X : Type, Ext X -> World -> (exn + X) * World.

(** [run p w]: the calls made in order, how the program ended ([Raised]
    for a [raise] of the module itself, [Failed] for an exception that
    came out of a collaborator), and the world after it. *)
Fixpoint run {A : Type} (p : Prog A) (w : World) : list event * outcome A * World :=
  match p with
  | Ret a => (nil, Returned a, w)
  | Raise e => (nil, Raised e, w)
  | Call c k =>
      match answer _ c w with
      | (inl e, w') => (Called c :: nil, Failed e, w')
      | (inr x, w') =>
          let '(tr, o, w'') := run (k x) w' in (Called c :: tr, o, w'')
      end
  end.

Definition trace {A : Type} (p : Prog A) (w : World) : list event := fst (fst (run p w)).
Definition result {A : Type} (p : Prog A) (w : World) : outcome A := snd (fst (run p w)).

End Run.

(** ** Reading a trace *)

Definition is_SeriesLoader_new (e : event) : bool :=
  match e with
  | Called c => match c with SeriesLoader_new _ _ _ => true | _ => false end
  end.

Definition is_fromBinary (e : event) : bool :=
  match e with
  | Called c => match c with SeriesLoader_fromBinary _ _ _ => true | _ => false end
  end.

(** The reading call that [loadSeries] ends with for a format tag. *)
Definition series_read (inputformat : string) (ld : loader) (datafile : string)
    (sc : SparkContext) : Ext RDD :=
  if String.eqb (Str.lower inputformat) "text" then SeriesLoader_fromText ld datafile sc
  else SeriesLoader_fromBinary ld datafile sc.

(** The reading call that [loadImages] ends with for a format tag. *)
Definition images_read (inputformat : string) (ld : loader) (datafile : string)
    (sc : SparkContext) : Ext RDD :=
  if String.eqb (Str.lower inputformat) "stack" then ImagesLoader_fromStack ld datafile sc
  else if String.eqb (Str.lower inputformat) "tif" then ImagesLoader_fromTif ld datafile sc
  else ImagesLoader_fromPng ld datafile sc.

(** Whether the program ended in a [raise] statement of the module. *)
Definition raised {A : Type} (o : outcome A) : bool :=
  match o with Raised _ => true | _ => false end.

(** The pairs [loadMatLocal] hands to the engine when there is no key file:
    linear indices from 1 zipped with the rows. *)
Definition indexed_rows (n : nat) (rest : list nat) (elts : list scalar)
    : list (pykey * ndarray) :=
  zip (map KInt (arange 1 (Z.of_nat n + 1))) (rows_of n rest elts).

(** ** A concrete outside world

    A small fixture to run the methods on: what the configuration lookup
    finds, the files the matrix reader knows, the collection the loaders
    produce and the transforms [PreProcessor] knows by name.  Its state
    counts the loader objects built so far.  Its engine distributes a list
    over a positive number of slices (or over its default number, for
    [None]) and refuses any other. *)

Record Fixture : Type := mk_Fixture {
  fx_conf : option (gmap string pyval);
  fx_data : RDD;
  fx_mat : gmap string (gmap string ndarray);
  fx_transform : string -> option (ndarray -> ndarray)
}.

Definition fixture_answer (fx : Fixture) (X : Type) (c : Ext X) (n : nat)
    : (exn + X) * nat :=
  match c in Ext T return (exn + T) * nat with
  | SeriesLoader_loadConf _ _ => (inr (fx_conf fx), n)
  | SeriesLoader_new _ _ _ => (inr n, S n)
  | SeriesLoader_fromText _ _ _ => (inr (fx_data fx), n)
  | SeriesLoader_fromBinary _ _ _ => (inr (fx_data fx), n)
  | ImagesLoader_new _ => (inr n, S n)
  | ImagesLoader_fromStack _ _ _ => (inr (fx_data fx), n)
  | ImagesLoader_fromTif _ _ _ => (inr (fx_data fx), n)
  | ImagesLoader_fromPng _ _ _ => (inr (fx_data fx), n)
  | DataSets_make _ _ _ => (inr (fx_data fx), n)
  | sc_parallelize _ c slices =>
      match slices with
      | PyNone => (inr (mk_RDD c slices), n)
      | PyInt z =>
          if (0 <? z)%Z then (inr (mk_RDD c slices), n)
          else (inl (OtherError "ZeroDivisionError" "integer division or modulo by zero"), n)
      | _ => (inl (TypeError "an integer is required"), n)
      end
  | sc_textFile _ _ => (inr nil, n)
  | rdd_first lines =>
      match lines with
      | nil => (inl (ValueError "RDD is empty"), n)
      | l :: _ => (inr l, n)
      end
  | json_loads _ => (inr ∅, n)
  | asarray _ => (inr (mk_ndarray (0 :: nil) nil), n)
  | loadmat file =>
      match fx_mat fx !! file with
      | Some vars => (inr vars, n)
      | None => (inl (IOError "No such file"), n)
      end
  | PreProcessor_new m =>
      match fx_transform fx m with
      | Some f => (inr f, n)
      | None => (inl (OtherError "UnboundLocalError" "func"), n)
      end
  end%nat.

Definition local_ctx : ThunderContext :=
  mk_ThunderContext (mk_SparkContext "local").

Definition ec2_ctx : ThunderContext :=
  mk_ThunderContext (mk_SparkContext "spark://ec2-54-0-0-1.compute-1.amazonaws.com:7077").

Definition arr_2x2 : ndarray :=
  mk_ndarray (2 :: 2 :: nil) (SInt 10 :: SInt 20 :: SInt 30 :: SInt 40 :: nil).

Definition arr_1x1x1 : ndarray :=
  mk_ndarray (1 :: 1 :: 1 :: nil) (SInt 7 :: nil).

Definition some_data : RDD :=
  mk_RDD ((KInt 1, mk_ndarray (2 :: nil) (SInt 10 :: SInt 20 :: nil))
          :: (KInt 2, mk_ndarray (2 :: nil) (SInt 30 :: SInt 40 :: nil)) :: nil)
         (PyInt 1).

(** A transform whose effect is visible: it empties the array. *)
Definition blank (a : ndarray) : ndarray := mk_ndarray (0 :: nil) nil.

Definition known_transform (m : string) : option (ndarray -> ndarray) :=
  if String.eqb m "blank" then Some blank else None.

Definition mat_files : gmap string (gmap string ndarray) :=
  {[ "flat.mat" := {[ "x" := arr_2x2 ]} ; "deep.mat" := {[ "x" := arr_1x1x1 ]} ]}.

(** No configuration file next to the data. *)
Definition fx_noconf : Fixture :=
  mk_Fixture None some_data mat_files known_transform.

(** A configuration file with both entries. *)
Definition fx_conf_full : Fixture :=
  mk_Fixture (Some {[ "nkeys" := PyInt 2 ; "nvalues" := PyInt 240 ]})
    some_data mat_files known_transform.



(** A configuration file that has [nvalues] and no [nkeys]. *)
Definition fx_conf_nvalues : Fixture :=
  mk_Fixture (Some {[ "nvalues" := PyInt 240 ]}) some_data mat_files known_transform.

(** ** More ways to read a trace *)

Definition is_fromText (e : event) : bool :=
  match e with
  | Called c => match c with SeriesLoader_fromText _ _ _ => true | _ => false end
  end.

(** The calls that fetch and decode the remote parameter file. *)
Definition is_paramfile_call (e : event) : bool :=
  match e with
  | Called c =>
      match c with
      | sc_textFile _ _ | rdd_first _ | json_loads _ | asarray _ => true
      | _ => false
      end
  end.

(** The calls a series load on [datafile] may make: the configuration
    lookup for that file, a loader with the caller's [minPartitions], and a
    reading method on that file with the context's Spark context. *)
Definition series_call (datafile conffile : string) (minPartitions : pyval)
    (sc : SparkContext) (e : event) : Prop :=
  match e with
  | Called c =>
      match c with
      | SeriesLoader_loadConf d cf => d = datafile /\ cf = conffile
      | SeriesLoader_new _ _ m => m = minPartitions
      | SeriesLoader_fromText _ d s => d = datafile /\ s = sc
      | SeriesLoader_fromBinary _ d s => d = datafile /\ s = sc
      | _ => False
      end
  end.

(** The tuple made from a row of the key array. *)
Definition key_of_row (rest : list nat) (row : ndarray) : pykey :=
  match rest with
  | nil => KTuple nil
  | m :: rest' => KTuple (rows_of m rest' (flat row))
  end.

(** The pairs [loadMatLocal] hands to the engine when there is a key file
    whose [keys] array has rows of shape [krest]: the tuples of the key rows
    zipped with the data rows. *)
Definition keyed_rows (kn : nat) (krest : list nat) (kelts : list scalar)
    (n : nat) (rest : list nat) (elts : list scalar) : list (pykey * ndarray) :=
  zip (map (key_of_row krest) (rows_of kn krest kelts)) (rows_of n rest elts).

(** The number of elements an array of a given shape holds. *)
Definition size_of (sh : list nat) : nat := fold_right Nat.mul 1%nat sh.

(** The remote example data, as the code names them. *)
Definition zebrafish_data : string :=
  "s3n://zebrafish.datasets/optomotor-response/1/data/dat_plane*.txt".
Definition zebrafish_params : string :=
  "s3n://zebrafish.datasets/optomotor-response/1/params.json".

(** ** A world for the remote example and for key files *)

Definition trials_array : ndarray :=
  mk_ndarray (3 :: nil) (SInt 1 :: SInt 2 :: SInt 1 :: nil).

(** A world in which the parameter file has one line, whose decoded object
    is [params]; everything else is answered as in [fixture_answer]. *)
Definition cluster_answer (params : gmap string pyval) (X : Type) (c : Ext X) (n : nat)
    : (exn + X) * nat :=
  match c in Ext T return (exn + T) * nat with
  | sc_textFile _ _ => (inr ("{...}" :: nil), n)
  | json_loads _ => (inr params, n)
  | asarray _ => (inr trials_array, n)
  | c' => fixture_answer fx_noconf _ c' n
  end.

Definition keys_3x2 : ndarray :=
  mk_ndarray (3 :: 2 :: nil)
    (SInt 1 :: SInt 1 :: SInt 1 :: SInt 2 :: SInt 2 :: SInt 1 :: nil).

(** Matrix files with companion key files: one with three key rows and one
    without a [keys] variable. *)
Definition fx_keys : Fixture :=
  mk_Fixture None some_data
    {[ "flat.mat" := {[ "x" := arr_2x2 ]} ;
       "k3.mat" := {[ "keys" := keys_3x2 ]} ;
       "nokeys.mat" := {[ "other" := keys_3x2 ]} ]}
    known_transform.

(** * Properties *)

Example lower_TEXT : Str.lower "TeXt" = "text".
Proof. reflexivity. Qed.

Example join_iris :
  Str.path_join "/opt/thunder/utils" "data/iris.txt" = "/opt/thunder/utils/data/iris.txt".
Proof. reflexivity. Qed.

Example contains_ec : Str.contains "ec" (master (_sc ec2_ctx)) = true.
Proof. reflexivity. Qed.

Example run_binary_noconf :
  run nat (fixture_answer fx_noconf)
      (loadSeries local_ctx "d.bin" default_nkeys (PyInt 5) "binary" PyNone "conf.json") 0%nat
  = (Called (SeriesLoader_loadConf "d.bin" "conf.json")
       :: Called (SeriesLoader_new (PyInt 3) (PyInt 5) PyNone)
       :: Called (SeriesLoader_fromBinary 0%nat "d.bin" (_sc local_ctx)) :: nil,
     Returned some_data, 1%nat).
Proof. reflexivity. Qed.

Example run_mat_flat :
  run nat (fixture_answer fx_noconf)
      (loadMatLocal local_ctx "flat.mat" "x" None None (PyInt 1)) 0%nat
  = (Called (loadmat "flat.mat")
       :: Called (sc_parallelize (_sc local_ctx) (records some_data) (PyInt 1)) :: nil,
     Returned some_data, 0%nat).
Proof. vm_compute. reflexivity. Qed.

(** ** Running programs *)

Section RunFacts.

Variable World : Type.
Variable answer : forall X : Type, Ext X -> World -> (exn + X) * World.

Local Abbreviation run := (run World answer).
Local Abbreviation trace := (trace World answer).
Local Abbreviation result := (result World answer).

Lemma run_call {X : Type} (c : Ext X) (w : World) :
  run (call c) w =
  match answer X c w with
  | (inl e, w') => (Called c :: nil, Failed e, w')
  | (inr x, w') => (Called c :: nil, Returned x, w')
  end.
Proof. simpl. destruct (answer X c w) as [[e | x] w']; reflexivity. Qed.

(** Sequencing: the second part runs in the world the first one left, and
    only if the first one returned. *)
Lemma run_bind {A B : Type} (p : Prog A) (f : A -> Prog B) (w : World) :
  run (bind p f) w =
  match run p w with
  | (tr, Returned a, w') =>
      let '(tr', o, w'') := run (f a) w' in ((tr ++ tr')%list, o, w'')
  | (tr, Raised e, w') => (tr, Raised e, w')
  | (tr, Failed e, w') => (tr, Failed e, w')
  end.
Proof.
  revert w. induction p as [a | e | X c k IH]; intros w; simpl.
  - destruct (run (f a) w) as [[tr o] w']. reflexivity.
  - reflexivity.
  - destruct (answer X c w) as [[e | x] w1]; [reflexivity |].
    rewrite IH. destruct (run (k x) w1) as [[tr [a | e | e]] w2]; simpl; try reflexivity.
    destruct (run (f a) w2) as [[tr' o] w3]. reflexivity.
Qed.

(** A program that starts with a [raise] makes no call at all. *)
Lemma run_Raise {A : Type} (e : exn) (w : World) :
  run (@Raise A e) w = (nil, Raised e, w).
Proof. reflexivity. Qed.

(** *** Series loading *)

(** The format check of [loadSeries] comes first. *)
Lemma loadSeries_bad_format self datafile nkeys nvalues inputformat minPartitions conffile :
  Str.mem (Str.lower inputformat) ("text" :: "binary" :: nil) = false ->
  loadSeries self datafile nkeys nvalues inputformat minPartitions conffile
  = Raise (series_format_error inputformat).
Proof. intros H. unfold loadSeries. rewrite H. reflexivity. Qed.


(** With an accepted tag and a configuration found that has both entries,
    the run is: look the configuration up, build the loader from its
    entries, read. *)
Lemma run_loadSeries_conf self datafile nkeys nvalues inputformat minPartitions conffile
    (params : gmap string pyval) k v w w1 :
  Str.mem (Str.lower inputformat) ("text" :: "binary" :: nil) = true ->
  answer _ (SeriesLoader_loadConf datafile conffile) w = (inr (Some params), w1) ->
  params !! "nkeys" = Some k ->
  params !! "nvalues" = Some v ->
  run (loadSeries self datafile nkeys nvalues inputformat minPartitions conffile) w =
  match answer _ (SeriesLoader_new k v minPartitions) w1 with
  | (inl e, w2) =>
      (Called (SeriesLoader_loadConf datafile conffile)
         :: Called (SeriesLoader_new k v minPartitions) :: nil, Failed e, w2)
  | (inr ld, w2) =>
      let '(tr, o, w3) := run (call (series_read inputformat ld datafile (_sc self))) w2 in
      (Called (SeriesLoader_loadConf datafile conffile)
         :: Called (SeriesLoader_new k v minPartitions) :: tr, o, w3)
  end.
Proof.
  intros Hfmt Hconf Hk Hv. unfold loadSeries, getitem, series_read.
  rewrite Hfmt. simpl. rewrite Hconf, Hk, Hv. simpl.
  destruct (answer _ (SeriesLoader_new k v minPartitions) w1) as [[e | ld] w2];
    [reflexivity |].
  destruct (String.eqb (Str.lower inputformat) "text"); simpl;
    match goal with |- context [answer ?X ?c ?w] => destruct (answer X c w) as [[e | r] w3] end;
    reflexivity.
Qed.

(** With an accepted tag, no configuration found and no missing [nvalues]
    for binary input, the loader is built from the caller's arguments. *)
Lemma run_loadSeries_noconf self datafile nkeys nvalues inputformat minPartitions conffile w w1 :
  Str.mem (Str.lower inputformat) ("text" :: "binary" :: nil) = true ->
  answer _ (SeriesLoader_loadConf datafile conffile) w = (inr None, w1) ->
  String.eqb (Str.lower inputformat) "binary" && is_None nvalues = false ->
  run (loadSeries self datafile nkeys nvalues inputformat minPartitions conffile) w =
  match answer _ (SeriesLoader_new nkeys nvalues minPartitions) w1 with
  | (inl e, w2) =>
      (Called (SeriesLoader_loadConf datafile conffile)
         :: Called (SeriesLoader_new nkeys nvalues minPartitions) :: nil, Failed e, w2)
  | (inr ld, w2) =>
      let '(tr, o, w3) := run (call (series_read inputformat ld datafile (_sc self))) w2 in
      (Called (SeriesLoader_loadConf datafile conffile)
         :: Called (SeriesLoader_new nkeys nvalues minPartitions) :: tr, o, w3)
  end.
Proof.
  intros Hfmt Hconf Hnv. unfold loadSeries, series_read.
  rewrite Hfmt. simpl. rewrite Hconf, Hnv. simpl.
  destruct (answer _ (SeriesLoader_new nkeys nvalues minPartitions) w1) as [[e | ld] w2];
    [reflexivity |].
  destruct (String.eqb (Str.lower inputformat) "text"); simpl;
    match goal with |- context [answer ?X ?c ?w] => destruct (answer X c w) as [[e | r] w3] end;
    reflexivity.
Qed.

(** Binary input, no configuration found, no [nvalues]: the module raises
    after the configuration lookup. *)
Lemma run_loadSeries_missing_nvalues self datafile nkeys inputformat minPartitions conffile w w1 :
  Str.lower inputformat = "binary" ->
  answer _ (SeriesLoader_loadConf datafile conffile) w = (inr None, w1) ->
  run (loadSeries self datafile nkeys PyNone inputformat minPartitions conffile) w =
  (Called (SeriesLoader_loadConf datafile conffile) :: nil, Raised missing_nvalues_error, w1).
Proof.
  intros Hfmt Hconf. unfold loadSeries. rewrite Hfmt. simpl. rewrite Hconf. reflexivity.
Qed.

End RunFacts.

(** ** The configuration file and the loader's arguments *)

(** C1. When the configuration lookup of [loadSeries] finds a file, the only
    loader that is built is built from the file's [nkeys] and [nvalues]; the
    caller's [nkeys] and [nvalues] are not used, whatever they are. *)
Theorem loadSeries_conf_takes_precedence
    (World : Type) (answer : forall X : Type, Ext X -> World -> (exn + X) * World)
    (self : ThunderContext) (datafile : string) (nkeys nvalues : pyval)
    (inputformat : string) (minPartitions : pyval) (conffile : string)
    (params : gmap string pyval) (k v : pyval) (w w1 : World) :
  Str.mem (Str.lower inputformat) ("text" :: "binary" :: nil) = true ->
  answer _ (SeriesLoader_loadConf datafile conffile) w = (inr (Some params), w1) ->
  params !! "nkeys" = Some k ->
  params !! "nvalues" = Some v ->
  List.filter is_SeriesLoader_new
    (trace World answer
       (loadSeries self datafile nkeys nvalues inputformat minPartitions conffile) w)
  = Called (SeriesLoader_new k v minPartitions) :: nil.
Proof.
  intros Hfmt Hconf Hk Hv. unfold trace.
  rewrite (run_loadSeries_conf World answer self datafile nkeys nvalues inputformat
             minPartitions conffile params k v w w1 Hfmt Hconf Hk Hv).
  destruct (answer _ (SeriesLoader_new k v minPartitions) w1) as [[e | ld] w2];
    [reflexivity |].
  rewrite run_call. unfold series_read.
  destruct (String.eqb (Str.lower inputformat) "text");
    match goal with |- context [answer ?X ?c ?w] => destruct (answer X c w) as [[e | r] w3] end;
    reflexivity.
Qed.

Lemma loadSeries_conf_takes_precedence_witness :
  List.filter is_SeriesLoader_new
    (trace nat (fixture_answer fx_conf_full)
       (loadSeries local_ctx "d.bin" (PyInt 3) (PyInt 5) "binary" PyNone "conf.json") 0%nat)
  = Called (SeriesLoader_new (PyInt 2) (PyInt 240) PyNone) :: nil.
Proof.
  apply (loadSeries_conf_takes_precedence nat (fixture_answer fx_conf_full) local_ctx
           "d.bin" (PyInt 3) (PyInt 5) "binary" PyNone "conf.json"
           {[ "nkeys" := PyInt 2 ; "nvalues" := PyInt 240 ]} (PyInt 2) (PyInt 240)
           0%nat 0%nat); reflexivity.
Defined.

(** ** Binary input needs [nvalues] *)

(** X20.  For a binary format tag: with no configuration
    found and no [nvalues], the module raises its invalid-argument error
    right after the configuration lookup, with no engine call made; with no
    configuration found and [nvalues] supplied, or with a configuration found
    that has both [nkeys] and [nvalues], the loader is built and the binary
    reading method is called, and the module raises nothing. *)
Theorem loadSeries_binary_nvalues
    (World : Type) (answer : forall X : Type, Ext X -> World -> (exn + X) * World)
    (self : ThunderContext) (datafile : string) (nkeys : pyval)
    (inputformat : string) (minPartitions : pyval) (conffile : string) (w w1 : World) :
  Str.lower inputformat = "binary" ->
  (answer _ (SeriesLoader_loadConf datafile conffile) w = (inr None, w1) ->
   run World answer
     (loadSeries self datafile nkeys PyNone inputformat minPartitions conffile) w
   = (Called (SeriesLoader_loadConf datafile conffile) :: nil,
      Raised (ValueError
        "Must specify nvalues for binary input if not providing a configuration file"),
      w1)
   /\ existsb is_engine
        (trace World answer
           (loadSeries self datafile nkeys PyNone inputformat minPartitions conffile) w)
      = false)
  /\ (forall (nvalues : pyval) (ld : loader) (w2 : World),
        is_None nvalues = false ->
        answer _ (SeriesLoader_loadConf datafile conffile) w = (inr None, w1) ->
        answer _ (SeriesLoader_new nkeys nvalues minPartitions) w1 = (inr ld, w2) ->
        trace World answer
          (loadSeries self datafile nkeys nvalues inputformat minPartitions conffile) w
        = Called (SeriesLoader_loadConf datafile conffile)
            :: Called (SeriesLoader_new nkeys nvalues minPartitions)
            :: Called (SeriesLoader_fromBinary ld datafile (_sc self)) :: nil
        /\ raised (result World answer
             (loadSeries self datafile nkeys nvalues inputformat minPartitions conffile) w)
           = false)
  /\ (forall (nvalues : pyval) (params : gmap string pyval) (k v : pyval)
        (ld : loader) (w2 : World),
        answer _ (SeriesLoader_loadConf datafile conffile) w = (inr (Some params), w1) ->
        params !! "nkeys" = Some k ->
        params !! "nvalues" = Some v ->
        answer _ (SeriesLoader_new k v minPartitions) w1 = (inr ld, w2) ->
        trace World answer
          (loadSeries self datafile nkeys nvalues inputformat minPartitions conffile) w
        = Called (SeriesLoader_loadConf datafile conffile)
            :: Called (SeriesLoader_new k v minPartitions)
            :: Called (SeriesLoader_fromBinary ld datafile (_sc self)) :: nil
        /\ raised (result World answer
             (loadSeries self datafile nkeys nvalues inputformat minPartitions conffile) w)
           = false).
Proof.
  intros Hfmt.
  assert (Hmem : Str.mem (Str.lower inputformat) ("text" :: "binary" :: nil) = true)
    by (rewrite Hfmt; reflexivity).
  split; [| split].
  - intros Hconf. unfold trace.
    rewrite (run_loadSeries_missing_nvalues World answer self datafile nkeys inputformat
               minPartitions conffile w w1 Hfmt Hconf).
    split; reflexivity.
  - intros nvalues ld w2 Hnv Hconf Hnew. unfold trace, result.
    rewrite (run_loadSeries_noconf World answer self datafile nkeys nvalues inputformat
               minPartitions conffile w w1 Hmem Hconf)
      by (rewrite Hnv; apply andb_false_r).
    rewrite Hnew, run_call. unfold series_read. rewrite Hfmt. simpl.
    destruct (answer RDD (SeriesLoader_fromBinary ld datafile (_sc self)) w2)
      as [[e | r] w3]; split; reflexivity.
  - intros nvalues params k v ld w2 Hconf Hk Hv Hnew. unfold trace, result.
    rewrite (run_loadSeries_conf World answer self datafile nkeys nvalues inputformat
               minPartitions conffile params k v w w1 Hmem Hconf Hk Hv).
    rewrite Hnew, run_call. unfold series_read. rewrite Hfmt. simpl.
    destruct (answer RDD (SeriesLoader_fromBinary ld datafile (_sc self)) w2)
      as [[e | r] w3]; split; reflexivity.
Qed.

Lemma loadSeries_binary_nvalues_witness :
  run nat (fixture_answer fx_noconf)
    (loadSeries local_ctx "d.bin" (PyInt 3) PyNone "binary" PyNone "conf.json") 0%nat
  = (Called (SeriesLoader_loadConf "d.bin" "conf.json") :: nil,
     Raised (ValueError
       "Must specify nvalues for binary input if not providing a configuration file"),
     0%nat)
  /\ trace nat (fixture_answer fx_noconf)
       (loadSeries local_ctx "d.bin" (PyInt 3) (PyInt 5) "binary" PyNone "conf.json") 0%nat
     = Called (SeriesLoader_loadConf "d.bin" "conf.json")
         :: Called (SeriesLoader_new (PyInt 3) (PyInt 5) PyNone)
         :: Called (SeriesLoader_fromBinary 0%nat "d.bin" (_sc local_ctx)) :: nil
  /\ trace nat (fixture_answer fx_conf_full)
       (loadSeries local_ctx "d.bin" (PyInt 3) PyNone "binary" PyNone "conf.json") 0%nat
     = Called (SeriesLoader_loadConf "d.bin" "conf.json")
         :: Called (SeriesLoader_new (PyInt 2) (PyInt 240) PyNone)
         :: Called (SeriesLoader_fromBinary 0%nat "d.bin" (_sc local_ctx)) :: nil.
Proof.
  split; [| split].
  - apply (loadSeries_binary_nvalues nat (fixture_answer fx_noconf) local_ctx "d.bin"
             (PyInt 3) "binary" PyNone "conf.json" 0%nat 0%nat eq_refl).
    reflexivity.
  - apply (proj1 (proj2 (loadSeries_binary_nvalues nat (fixture_answer fx_noconf) local_ctx
             "d.bin" (PyInt 3) "binary" PyNone "conf.json" 0%nat 0%nat eq_refl))
             (PyInt 5) 0%nat 1%nat); reflexivity.
  - apply (proj2 (proj2 (loadSeries_binary_nvalues nat (fixture_answer fx_conf_full)
             local_ctx "d.bin" (PyInt 3) "binary" PyNone "conf.json" 0%nat 0%nat eq_refl))
             PyNone {[ "nkeys" := PyInt 2 ; "nvalues" := PyInt 240 ]} (PyInt 2) (PyInt 240)
             0%nat 1%nat); reflexivity.
Defined.

(** C2.  The code at the input that breaks the claim: binary input, no
    [nvalues] argument, and a configuration file that contains [nvalues] and
    no [nkeys].  The docstring lets [nvalues] come from the configuration
    file and gives [nkeys] a default, so the load should go on to the binary
    reading method; the subscript [params['nkeys']] raises [KeyError]
    instead, no loader is built and the binary reading method is never
    called. *)
Lemma loadSeries_conf_nvalues_only_raises :
  (exists params : gmap string pyval,
     fx_conf fx_conf_nvalues = Some params /\ params !! "nvalues" = Some (PyInt 240))
  /\ run nat (fixture_answer fx_conf_nvalues)
       (loadSeries local_ctx "d.bin" (PyInt 3) PyNone "binary" PyNone "conf.json") 0%nat
     = (Called (SeriesLoader_loadConf "d.bin" "conf.json") :: nil,
        Raised (KeyError "nkeys"), 0%nat)
  /\ existsb is_fromBinary
       (trace nat (fixture_answer fx_conf_nvalues)
          (loadSeries local_ctx "d.bin" (PyInt 3) PyNone "binary" PyNone "conf.json") 0%nat)
     = false.
Proof.
  split; [| split].
  - eexists. split; reflexivity.
  - reflexivity.
  - reflexivity.
Qed.

(** ** Format tags *)




(** With an accepted tag [loadImages] builds a loader and calls the reading
    method of the tag; it has no [raise] left. *)
Lemma run_loadImages_accepted
    (World : Type) (answer : forall X : Type, Ext X -> World -> (exn + X) * World)
    self datafile dims inputformat (w : World) :
  Str.mem (Str.lower inputformat) ("stack" :: "png" :: "tif" :: nil) = true ->
  run World answer (loadImages self datafile dims inputformat) w =
  match answer _ (ImagesLoader_new dims) w with
  | (inl e, w1) => (Called (ImagesLoader_new dims) :: nil, Failed e, w1)
  | (inr ld, w1) =>
      let '(tr, o, w2) :=
        run World answer (call (images_read inputformat ld datafile (_sc self))) w1 in
      (Called (ImagesLoader_new dims) :: tr, o, w2)
  end.
Proof.
  intros Hfmt. unfold loadImages, images_read. rewrite Hfmt. simpl.
  destruct (answer _ (ImagesLoader_new dims) w) as [[e | ld] w1]; [reflexivity |].
  destruct (String.eqb (Str.lower inputformat) "stack"); simpl;
    [| destruct (String.eqb (Str.lower inputformat) "tif"); simpl];
    match goal with |- context [answer ?X ?c ?w] => destruct (answer X c w) as [[e | r] w3] end;
    reflexivity.
Qed.






(** ** Preprocessing *)

(** C4. With no method name, [preprocess] gives back the collection it was
    given and makes no call. *)
Theorem preprocess_None_identity
    (World : Type) (answer : forall X : Type, Ext X -> World -> (exn + X) * World)
    (data : RDD) (w : World) :
  run World answer (preprocess data None) w = (nil, Returned data, w).
Proof. reflexivity. Qed.

Lemma keys_mapValues (f : ndarray -> ndarray) (r : RDD) : keys (mapValues f r) = keys r.
Proof.
  unfold keys, mapValues. simpl.
  induction (records r) as [| [k v] l IH]; simpl; [reflexivity |].
  rewrite IH. reflexivity.
Qed.

Lemma values_mapValues (f : ndarray -> ndarray) (r : RDD) :
  values (mapValues f r) = map f (values r).
Proof.
  unfold values, mapValues. simpl.
  induction (records r) as [| [k v] l IH]; simpl; [reflexivity |].
  rewrite IH. reflexivity.
Qed.

(** C9. With a method name given and a transform found for it, [preprocess]
    returns the collection mapped by the transform: the keys are the keys of
    the input, in order, and the values are the transform of the input's
    values, in order. *)
Theorem preprocess_maps_values_keeps_keys
    (World : Type) (answer : forall X : Type, Ext X -> World -> (exn + X) * World)
    (data : RDD) (m : string) (f : ndarray -> ndarray) (w w1 : World) :
  m <> "" ->
  answer _ (PreProcessor_new m) w = (inr f, w1) ->
  exists out : RDD,
    run World answer (preprocess data (Some m)) w
    = (Called (PreProcessor_new m) :: nil, Returned out, w1)
    /\ keys out = keys data
    /\ values out = map f (values data).
Proof.
  intros Hm Hf. exists (mapValues f data).
  split; [| split].
  - destruct m as [| c r]; [congruence |]. simpl. rewrite Hf. reflexivity.
  - apply keys_mapValues.
  - apply values_mapValues.
Qed.

Lemma preprocess_maps_values_keeps_keys_witness :
  exists out : RDD,
    run nat (fixture_answer fx_noconf) (preprocess some_data (Some "blank")) 0%nat
    = (Called (PreProcessor_new "blank") :: nil, Returned out, 0%nat)
    /\ keys out = KInt 1 :: KInt 2 :: nil
    /\ values out = blank (mk_ndarray (2 :: nil) (SInt 10 :: SInt 20 :: nil))
                    :: blank (mk_ndarray (2 :: nil) (SInt 30 :: SInt 40 :: nil)) :: nil.
Proof.
  apply (preprocess_maps_values_keeps_keys nat (fixture_answer fx_noconf) some_data
           "blank" blank 0%nat 0%nat); [discriminate | reflexivity].
Defined.

(** ** Example data *)

(** C6. When the master string of the Spark context does not contain [ec],
    [loadExampleEC2] raises [Exception] at once, for every dataset name, and
    makes no call. *)
Theorem loadExampleEC2_requires_cluster
    (World : Type) (answer : forall X : Type, Ext X -> World -> (exn + X) * World)
    (self : ThunderContext) (dataset : string) (w : World) :
  Str.contains "ec" (master (_sc self)) = false ->
  run World answer (loadExampleEC2 self dataset) w
  = (nil, Raised (Exception "must be running on EC2 to load this example data sets"), w).
Proof. intros H. unfold loadExampleEC2. rewrite H. reflexivity. Qed.

Lemma loadExampleEC2_requires_cluster_witness :
  run nat (fixture_answer fx_noconf)
    (loadExampleEC2 local_ctx "zebrafish-optomotor-response") 0%nat
  = (nil, Raised (Exception "must be running on EC2 to load this example data sets"), 0%nat).
Proof.
  apply (loadExampleEC2_requires_cluster nat (fixture_answer fx_noconf) local_ctx
           "zebrafish-optomotor-response" 0%nat).
  reflexivity.
Defined.

(** ** The loaders that are not there yet *)

(** C8. [loadBinaryLocal] and [loadArrayLocal] raise [NotImplementedError]
    for every input and in every world, and make no call. *)
Theorem local_loaders_unimplemented
    (World : Type) (answer : forall X : Type, Ext X -> World -> (exn + X) * World)
    (self : ThunderContext) (w : World) :
  (forall (datafile : string) (nvalues nkeys : pyval) (format : string)
          (keyfile method : option string),
     run World answer (loadBinaryLocal self datafile nvalues nkeys format keyfile method) w
     = (nil, Raised (NotImplementedError None), w))
  /\ (forall (vals : ndarray) (ks : option ndarray) (method : option string),
        run World answer (loadArrayLocal self vals ks method) w
        = (nil, Raised (NotImplementedError None), w)).
Proof. split; intros; reflexivity. Qed.




(** ** Matrix files *)

Lemma arange_from_1 (n : nat) :
  arange 1 (Z.of_nat n + 1) = map Z.of_nat (seq 1 n).
Proof.
  unfold arange. replace (Z.to_nat (Z.of_nat n + 1 - 1)) with n by lia.
  rewrite <- seq_shift, map_map. apply map_ext. intros i. lia.
Qed.

Lemma length_rows_of (n : nat) (rest : list nat) (elts : list scalar) :
  length (rows_of n rest elts) = n.
Proof. unfold rows_of. rewrite length_map. apply length_seq. Qed.

Lemma zip_fst {A B : Type} (a : list A) (b : list B) :
  length a = length b -> map fst (zip a b) = a.
Proof.
  revert b. induction a as [| x a IH]; intros [| y b] H; simpl in *;
    try reflexivity; try discriminate.
  f_equal. apply IH. congruence.
Qed.

Lemma zip_snd {A B : Type} (a : list A) (b : list B) :
  length a = length b -> map snd (zip a b) = b.
Proof.
  revert b. induction a as [| x a IH]; intros [| y b] H; simpl in *;
    try reflexivity; try discriminate.
  f_equal. apply IH. congruence.
Qed.

Lemma keys_indexed_rows n rest elts :
  map fst (indexed_rows n rest elts) = map (fun i => KInt (Z.of_nat i)) (seq 1 n).
Proof.
  unfold indexed_rows. rewrite zip_fst.
  - rewrite arange_from_1, map_map. reflexivity.
  - rewrite arange_from_1, !length_map, length_seq, length_rows_of. reflexivity.
Qed.

Lemma values_indexed_rows n rest elts :
  map snd (indexed_rows n rest elts) = rows_of n rest elts.
Proof.
  unfold indexed_rows. apply zip_snd.
  rewrite arange_from_1, !length_map, length_seq, length_rows_of. reflexivity.
Qed.

Lemma length_indexed_rows n rest elts : length (indexed_rows n rest elts) = n.
Proof.
  rewrite <- (length_map fst), keys_indexed_rows, length_map. apply length_seq.
Qed.

(** A load with no key file of a variable of one or two dimensions is the
    file read, the engine call on the indexed rows and, if the engine gives a
    collection, [preprocess] on it. *)
Lemma run_loadMatLocal_nokeys
    (World : Type) (answer : forall X : Type, Ext X -> World -> (exn + X) * World)
    self datafile varname keyfile filter minPartitions
    (vars : gmap string ndarray) (data : ndarray) n rest (w w1 : World) :
  answer _ (loadmat datafile) w = (inr vars, w1) ->
  vars !! varname = Some data ->
  shape data = n :: rest ->
  (length rest <= 1)%nat ->
  truthy keyfile = false ->
  let par := sc_parallelize (_sc self) (indexed_rows n rest (flat data)) minPartitions in
  run World answer (loadMatLocal self datafile varname keyfile filter minPartitions) w =
  match answer _ par w1 with
  | (inl e, w2) => (Called (loadmat datafile) :: Called par :: nil, Failed e, w2)
  | (inr rdd, w2) =>
      let '(tr, o, w3) := run World answer (preprocess rdd filter) w2 in
      (Called (loadmat datafile) :: Called par :: tr, o, w3)
  end.
Proof.
  intros Hload Hvar Hshape Hdim Hkey par. subst par.
  unfold loadMatLocal, getitem, shape0, iterate, ndim, indexed_rows. simpl.
  rewrite Hload, Hvar. simpl. rewrite Hshape. simpl.
  destruct rest as [| m [| m' rest']]; simpl in Hdim; try lia;
    destruct keyfile as [[| c r] |]; try discriminate Hkey; simpl;
    match goal with |- context [answer ?X ?c ?w] => destruct (answer X c w) as [[e | rdd] w2] end;
    try reflexivity;
    destruct (run World answer (preprocess rdd filter) w2) as [[tr o] w3]; reflexivity.
Qed.

(** C7.  Given that the file is read and has the variable: when the
    variable has more than two dimensions, [loadMatLocal] raises [IOError],
    and the one call made before that is the read of the file.  When it has
    one or two dimensions and [n] rows and there is no key file, the pairs
    handed to the engine have the keys [1], ..., [n] in that order, one per
    row and with the rows in order as values; if the engine refuses them its
    exception is passed on; if it gives the collection of these pairs and the
    filter (if one is given) names a transform, the load returns a
    collection whose keys are [1], ..., [n] in that order, and without a
    filter its values are the rows in order. *)
Theorem loadMatLocal_dims_and_keys
    (World : Type) (answer : forall X : Type, Ext X -> World -> (exn + X) * World)
    (self : ThunderContext) (datafile varname : string)
    (vars : gmap string ndarray) (data : ndarray) (w w1 : World) :
  answer _ (loadmat datafile) w = (inr vars, w1) ->
  vars !! varname = Some data ->
  ((2 < ndim data)%nat ->
   forall (keyfile filter : option string) (minPartitions : pyval),
     run World answer (loadMatLocal self datafile varname keyfile filter minPartitions) w
     = (Called (loadmat datafile) :: nil,
        Raised (IOError "input data must be one or two dimensional"), w1))
  /\ (forall (n : nat) (rest : list nat) (keyfile filter : option string)
        (minPartitions : pyval),
        shape data = n :: rest ->
        (length rest <= 1)%nat ->
        truthy keyfile = false ->
        let pairs := indexed_rows n rest (flat data) in
        let par := sc_parallelize (_sc self) pairs minPartitions in
        (map fst pairs = map (fun i => KInt (Z.of_nat i)) (seq 1 n)
         /\ map snd pairs = rows_of n rest (flat data)
         /\ length pairs = n)
        /\ (forall (e : exn) (w2 : World),
              answer _ par w1 = (inl e, w2) ->
              run World answer
                (loadMatLocal self datafile varname keyfile filter minPartitions) w
              = (Called (loadmat datafile) :: Called par :: nil, Failed e, w2))
        /\ (forall (rdd : RDD) (w2 : World),
              answer _ par w1 = (inr rdd, w2) ->
              records rdd = pairs ->
              (forall m : string, filter = Some m -> m <> "" ->
                 exists (f : ndarray -> ndarray) (w3 : World),
                   answer _ (PreProcessor_new m) w2 = (inr f, w3)) ->
              exists (tr : list event) (out : RDD) (w' : World),
                run World answer
                  (loadMatLocal self datafile varname keyfile filter minPartitions) w
                = (Called (loadmat datafile) :: Called par :: tr, Returned out, w')
                /\ keys out = map (fun i => KInt (Z.of_nat i)) (seq 1 n)
                /\ length (records out) = n
                /\ (truthy filter = false -> values out = rows_of n rest (flat data)))).
Proof.
  intros Hload Hvar. split.
  - intros Hdim keyfile filter minPartitions.
    unfold loadMatLocal, getitem. simpl. rewrite Hload, Hvar. simpl.
    apply Nat.ltb_lt in Hdim. rewrite Hdim. reflexivity.
  - intros n rest keyfile filter minPartitions Hshape Hdim Hkey pairs par.
    pose proof (run_loadMatLocal_nokeys World answer self datafile varname keyfile filter
                  minPartitions vars data n rest w w1 Hload Hvar Hshape Hdim Hkey) as Hrun.
    cbv zeta in Hrun. fold pairs in Hrun. fold par in Hrun.
    split; [| split].
    + split; [apply keys_indexed_rows |]. split; [apply values_indexed_rows |].
      apply length_indexed_rows.
    + intros e w2 Hpar. rewrite Hrun, Hpar. reflexivity.
    + intros rdd w2 Hpar Hrec Hpre. rewrite Hrun, Hpar.
      assert (Hk : keys rdd = map (fun i => KInt (Z.of_nat i)) (seq 1 n))
        by (unfold keys; rewrite Hrec; apply keys_indexed_rows).
      assert (Hv : values rdd = rows_of n rest (flat data))
        by (unfold values; rewrite Hrec; apply values_indexed_rows).
      assert (Hl : length (records rdd) = n)
        by (rewrite Hrec; apply length_indexed_rows).
      destruct filter as [[| c r] |].
      * exists nil, rdd, w2. split; [reflexivity |]. auto.
      * destruct (Hpre (String c r) eq_refl ltac:(discriminate)) as (f & w3 & Hf).
        exists (Called (PreProcessor_new (String c r)) :: nil), (mapValues f rdd), w3.
        simpl. rewrite Hf. split; [reflexivity |].
        split; [rewrite keys_mapValues; exact Hk |].
        split; [unfold mapValues; simpl; rewrite length_map; exact Hl | discriminate].
      * exists nil, rdd, w2. split; [reflexivity |]. auto.
Qed.

Lemma loadMatLocal_dims_and_keys_witness :
  run nat (fixture_answer fx_noconf)
    (loadMatLocal local_ctx "deep.mat" "x" None None (PyInt 1)) 0%nat
  = (Called (loadmat "deep.mat") :: nil,
     Raised (IOError "input data must be one or two dimensional"), 0%nat)
  /\ run nat (fixture_answer fx_noconf)
       (loadMatLocal local_ctx "flat.mat" "x" None None (PyInt 0)) 0%nat
     = (Called (loadmat "flat.mat")
          :: Called (sc_parallelize (_sc local_ctx)
                       (indexed_rows 2 (2%nat :: nil) (flat arr_2x2)) (PyInt 0)) :: nil,
        Failed (OtherError "ZeroDivisionError" "integer division or modulo by zero"), 0%nat)
  /\ exists (tr : list event) (out : RDD) (w' : nat),
       run nat (fixture_answer fx_noconf)
         (loadMatLocal local_ctx "flat.mat" "x" None (Some "blank") (PyInt 1)) 0%nat
       = (Called (loadmat "flat.mat")
            :: Called (sc_parallelize (_sc local_ctx)
                         (indexed_rows 2 (2%nat :: nil) (flat arr_2x2)) (PyInt 1)) :: tr,
          Returned out, w')
       /\ keys out = KInt 1 :: KInt 2 :: nil
       /\ length (records out) = 2%nat
       /\ (truthy (Some "blank") = false ->
           values out = rows_of 2 (2%nat :: nil) (flat arr_2x2)).
Proof.
  split; [| split].
  - apply (proj1 (loadMatLocal_dims_and_keys nat (fixture_answer fx_noconf) local_ctx
                    "deep.mat" "x" {[ "x" := arr_1x1x1 ]} arr_1x1x1 0%nat 0%nat
                    eq_refl eq_refl)).
    cbv. lia.
  - apply (proj1 (proj2 (proj2 (loadMatLocal_dims_and_keys nat (fixture_answer fx_noconf)
                    local_ctx "flat.mat" "x" {[ "x" := arr_2x2 ]} arr_2x2 0%nat 0%nat
                    eq_refl eq_refl) 2%nat (2%nat :: nil) None None (PyInt 0)
                    eq_refl ltac:(cbv; lia) eq_refl))).
    reflexivity.
  - apply (proj2 (proj2 (proj2 (loadMatLocal_dims_and_keys nat (fixture_answer fx_noconf)
                    local_ctx "flat.mat" "x" {[ "x" := arr_2x2 ]} arr_2x2 0%nat 0%nat
                    eq_refl eq_refl) 2%nat (2%nat :: nil) None (Some "blank") (PyInt 1)
                    eq_refl ltac:(cbv; lia) eq_refl))
             (mk_RDD (indexed_rows 2 (2%nat :: nil) (flat arr_2x2)) (PyInt 1)) 0%nat).
    + reflexivity.
    + reflexivity.
    + intros m Hm _. injection Hm as <-. exists blank, 0%nat. reflexivity.
Defined.

(** * Further properties *)

(** ** Series loading, all runs *)

(** With an accepted tag, a run of [loadSeries] makes the configuration
    lookup, then at most a loader with the caller's [minPartitions], then at
    most the reading call of the tag on the loader that was built. *)
Lemma loadSeries_trace_shape
    (World : Type) (answer : forall X : Type, Ext X -> World -> (exn + X) * World)
    self datafile nkeys nvalues inputformat minPartitions conffile (w : World) :
  Str.mem (Str.lower inputformat) ("text" :: "binary" :: nil) = true ->
  let tr := trace World answer
              (loadSeries self datafile nkeys nvalues inputformat minPartitions conffile) w in
  tr = Called (SeriesLoader_loadConf datafile conffile) :: nil
  \/ (exists a b : pyval,
        tr = Called (SeriesLoader_loadConf datafile conffile)
               :: Called (SeriesLoader_new a b minPartitions) :: nil)
  \/ (exists (a b : pyval) (ld : loader),
        tr = Called (SeriesLoader_loadConf datafile conffile)
               :: Called (SeriesLoader_new a b minPartitions)
               :: Called (series_read inputformat ld datafile (_sc self)) :: nil).
Proof.
  intros Hfmt. unfold trace, loadSeries, getitem, series_read. rewrite Hfmt. simpl.
  destruct (answer _ (SeriesLoader_loadConf datafile conffile) w) as [[e0 | [params |]] w1];
    simpl; [left; reflexivity | |].
  - destruct (params !! "nkeys") as [k |]; simpl; [| left; reflexivity].
    destruct (params !! "nvalues") as [v |]; simpl; [| left; reflexivity].
    destruct (answer _ (SeriesLoader_new k v minPartitions) w1) as [[e1 | ld] w2]; simpl;
      [right; left; eauto |].
    right; right. exists k, v, ld.
    destruct (String.eqb (Str.lower inputformat) "text"); simpl;
      match goal with |- context [answer ?X ?c ?w] => destruct (answer X c w) as [[e2 | r] w3] end;
      reflexivity.
  - destruct (String.eqb (Str.lower inputformat) "binary" && is_None nvalues); simpl;
      [left; reflexivity |].
    destruct (answer _ (SeriesLoader_new nkeys nvalues minPartitions) w1) as [[e1 | ld] w2];
      simpl; [right; left; eauto |].
    right; right. exists nkeys, nvalues, ld.
    destruct (String.eqb (Str.lower inputformat) "text"); simpl;
      match goal with |- context [answer ?X ?c ?w] => destruct (answer X c w) as [[e2 | r] w3] end;
      reflexivity.
Qed.

Lemma accepted_or_rejected (inputformat : string) (tags : list string) :
  Str.mem (Str.lower inputformat) tags = true \/ Str.mem (Str.lower inputformat) tags = false.
Proof. destruct (Str.mem (Str.lower inputformat) tags); auto. Qed.

(** X1. A configuration that is found and lacks [nkeys] makes [loadSeries]
    raise [KeyError] on [nkeys]; one that has [nkeys] and lacks [nvalues]
    makes it raise [KeyError] on [nvalues].  In both cases the lookup is the
    only call: no loader is built, and the caller's [nkeys] and [nvalues] are
    not fallen back on. *)
Theorem loadSeries_conf_missing_entry
    (World : Type) (answer : forall X : Type, Ext X -> World -> (exn + X) * World)
    (self : ThunderContext) (datafile : string) (nkeys nvalues : pyval)
    (inputformat : string) (minPartitions : pyval) (conffile : string)
    (params : gmap string pyval) (w w1 : World) :
  Str.mem (Str.lower inputformat) ("text" :: "binary" :: nil) = true ->
  answer _ (SeriesLoader_loadConf datafile conffile) w = (inr (Some params), w1) ->
  (params !! "nkeys" = None ->
   run World answer
     (loadSeries self datafile nkeys nvalues inputformat minPartitions conffile) w
   = (Called (SeriesLoader_loadConf datafile conffile) :: nil, Raised (KeyError "nkeys"), w1))
  /\ (is_Some (params !! "nkeys") -> params !! "nvalues" = None ->
      run World answer
        (loadSeries self datafile nkeys nvalues inputformat minPartitions conffile) w
      = (Called (SeriesLoader_loadConf datafile conffile) :: nil,
         Raised (KeyError "nvalues"), w1)).
Proof.
  intros Hfmt Hconf. split.
  - intros Hk. unfold loadSeries, getitem. rewrite Hfmt. simpl.
    rewrite Hconf, Hk. reflexivity.
  - intros [k Hk] Hv. unfold loadSeries, getitem. rewrite Hfmt. simpl.
    rewrite Hconf, Hk. simpl. rewrite Hv. reflexivity.
Qed.

Lemma loadSeries_conf_missing_entry_witness :
  run nat (fixture_answer (mk_Fixture (Some ∅) some_data mat_files known_transform))
    (loadSeries local_ctx "d.txt" (PyInt 3) (PyInt 5) "text" PyNone "conf.json") 0%nat
  = (Called (SeriesLoader_loadConf "d.txt" "conf.json") :: nil,
     Raised (KeyError "nkeys"), 0%nat)
  /\ run nat (fixture_answer
               (mk_Fixture (Some {[ "nkeys" := PyInt 2 ]}) some_data mat_files known_transform))
       (loadSeries local_ctx "d.txt" (PyInt 3) (PyInt 5) "text" PyNone "conf.json") 0%nat
     = (Called (SeriesLoader_loadConf "d.txt" "conf.json") :: nil,
        Raised (KeyError "nvalues"), 0%nat).
Proof.
  split.
  - apply (proj1 (loadSeries_conf_missing_entry nat
             (fixture_answer (mk_Fixture (Some ∅) some_data mat_files known_transform))
             local_ctx "d.txt" (PyInt 3) (PyInt 5) "text" PyNone "conf.json" ∅ 0%nat 0%nat
             eq_refl eq_refl)).
    reflexivity.
  - apply (proj2 (loadSeries_conf_missing_entry nat
             (fixture_answer
                (mk_Fixture (Some {[ "nkeys" := PyInt 2 ]}) some_data mat_files
                   known_transform))
             local_ctx "d.txt" (PyInt 3) (PyInt 5) "text" PyNone "conf.json"
             {[ "nkeys" := PyInt 2 ]} 0%nat 0%nat eq_refl eq_refl)).
    + exists (PyInt 2). reflexivity.
    + reflexivity.
Defined.

(** X2. Text input does not need [nvalues]: with a tag that lowercases to
    text, no configuration found and the loader built, the run is the
    lookup, the loader with the caller's arguments (a missing [nvalues]
    included) and the text reading method, and the module raises nothing. *)
Theorem loadSeries_text_tolerates_missing_nvalues
    (World : Type) (answer : forall X : Type, Ext X -> World -> (exn + X) * World)
    (self : ThunderContext) (datafile : string) (nkeys nvalues : pyval)
    (inputformat : string) (minPartitions : pyval) (conffile : string)
    (ld : loader) (w w1 w2 : World) :
  Str.lower inputformat = "text" ->
  answer _ (SeriesLoader_loadConf datafile conffile) w = (inr None, w1) ->
  answer _ (SeriesLoader_new nkeys nvalues minPartitions) w1 = (inr ld, w2) ->
  trace World answer
    (loadSeries self datafile nkeys nvalues inputformat minPartitions conffile) w
  = Called (SeriesLoader_loadConf datafile conffile)
      :: Called (SeriesLoader_new nkeys nvalues minPartitions)
      :: Called (SeriesLoader_fromText ld datafile (_sc self)) :: nil
  /\ raised (result World answer
       (loadSeries self datafile nkeys nvalues inputformat minPartitions conffile) w)
     = false.
Proof.
  intros Hfmt Hconf Hnew. unfold trace, result.
  rewrite (run_loadSeries_noconf World answer self datafile nkeys nvalues inputformat
             minPartitions conffile w w1)
    by (try exact Hconf; rewrite Hfmt; reflexivity).
  rewrite Hnew, run_call. unfold series_read. rewrite Hfmt. simpl.
  destruct (answer RDD (SeriesLoader_fromText ld datafile (_sc self)) w2) as [[e | r] w3];
    split; reflexivity.
Qed.

Lemma loadSeries_text_tolerates_missing_nvalues_witness :
  trace nat (fixture_answer fx_noconf)
    (loadSeries local_ctx "d.txt" (PyInt 3) PyNone "Text" PyNone "conf.json") 0%nat
  = Called (SeriesLoader_loadConf "d.txt" "conf.json")
      :: Called (SeriesLoader_new (PyInt 3) PyNone PyNone)
      :: Called (SeriesLoader_fromText 0%nat "d.txt" (_sc local_ctx)) :: nil
  /\ raised (result nat (fixture_answer fx_noconf)
       (loadSeries local_ctx "d.txt" (PyInt 3) PyNone "Text" PyNone "conf.json") 0%nat)
     = false.
Proof.
  apply (loadSeries_text_tolerates_missing_nvalues nat (fixture_answer fx_noconf) local_ctx
           "d.txt" (PyInt 3) PyNone "Text" PyNone "conf.json" 0%nat 0%nat 0%nat 1%nat);
    reflexivity.
Defined.

(** X3. Once the loader is built, [loadSeries] ends exactly as the reading
    method does, whether the arguments came from the caller or from the
    configuration: the collection it returns is returned as it is, in the
    world the reader left, and its exception is passed on. *)
Theorem loadSeries_ends_as_reader
    (World : Type) (answer : forall X : Type, Ext X -> World -> (exn + X) * World)
    (self : ThunderContext) (datafile : string) (nkeys nvalues : pyval)
    (inputformat : string) (minPartitions : pyval) (conffile : string)
    (conf : option (gmap string pyval)) (a b : pyval) (ld : loader) (w w1 w2 : World) :
  Str.mem (Str.lower inputformat) ("text" :: "binary" :: nil) = true ->
  answer _ (SeriesLoader_loadConf datafile conffile) w = (inr conf, w1) ->
  match conf with
  | None =>
      String.eqb (Str.lower inputformat) "binary" && is_None nvalues = false
      /\ a = nkeys /\ b = nvalues
  | Some params => params !! "nkeys" = Some a /\ params !! "nvalues" = Some b
  end ->
  answer _ (SeriesLoader_new a b minPartitions) w1 = (inr ld, w2) ->
  let read := series_read inputformat ld datafile (_sc self) in
  result World answer
    (loadSeries self datafile nkeys nvalues inputformat minPartitions conffile) w
  = match fst (answer _ read w2) with
    | inl e => Failed e
    | inr r => Returned r
    end
  /\ snd (run World answer
            (loadSeries self datafile nkeys nvalues inputformat minPartitions conffile) w)
     = snd (answer _ read w2).
Proof.
  intros Hfmt Hconf Hargs Hnew read. unfold result.
  destruct conf as [params |].
  - destruct Hargs as [Hk Hv].
    rewrite (run_loadSeries_conf World answer self datafile nkeys nvalues inputformat
               minPartitions conffile params a b w w1 Hfmt Hconf Hk Hv).
    rewrite Hnew, run_call. fold read.
    destruct (answer RDD read w2) as [[e | r] w3]; split; reflexivity.
  - destruct Hargs as (Hnv & -> & ->).
    rewrite (run_loadSeries_noconf World answer self datafile nkeys nvalues inputformat
               minPartitions conffile w w1 Hfmt Hconf Hnv).
    rewrite Hnew, run_call. fold read.
    destruct (answer RDD read w2) as [[e | r] w3]; split; reflexivity.
Qed.

Lemma loadSeries_ends_as_reader_witness :
  result nat (fixture_answer fx_conf_full)
    (loadSeries local_ctx "d.bin" (PyInt 3) PyNone "binary" PyNone "conf.json") 0%nat
  = Returned some_data
  /\ snd (run nat (fixture_answer fx_conf_full)
            (loadSeries local_ctx "d.bin" (PyInt 3) PyNone "binary" PyNone "conf.json") 0%nat)
     = 1%nat.
Proof.
  apply (loadSeries_ends_as_reader nat (fixture_answer fx_conf_full) local_ctx "d.bin"
           (PyInt 3) PyNone "binary" PyNone "conf.json"
           (Some {[ "nkeys" := PyInt 2 ; "nvalues" := PyInt 240 ]}) (PyInt 2) (PyInt 240)
           0%nat 0%nat 0%nat 1%nat); try reflexivity.
  split; reflexivity.
Defined.

(** X4. Whatever the arguments and whatever the world, [loadSeries] makes at
    most three calls, and each of them is the configuration lookup for the
    given file and configuration path, a series loader with the caller's
    [minPartitions], or a series reading method on the given file with the
    context's Spark context; it calls nothing else. *)
Theorem loadSeries_calls_only_series_loader
    (World : Type) (answer : forall X : Type, Ext X -> World -> (exn + X) * World)
    (self : ThunderContext) (datafile : string) (nkeys nvalues : pyval)
    (inputformat : string) (minPartitions : pyval) (conffile : string) (w : World) :
  let tr := trace World answer
              (loadSeries self datafile nkeys nvalues inputformat minPartitions conffile) w in
  (length tr <= 3)%nat
  /\ Forall (series_call datafile conffile minPartitions (_sc self)) tr.
Proof.
  intros tr.
  destruct (accepted_or_rejected inputformat ("text" :: "binary" :: nil)) as [Hfmt | Hfmt].
  - destruct (loadSeries_trace_shape World answer self datafile nkeys nvalues inputformat
                minPartitions conffile w Hfmt) as [H | [(a & b & H) | (a & b & ld & H)]];
      fold tr in H; rewrite H; (split; [simpl; lia |]).
    + repeat constructor.
    + constructor; [split; reflexivity |]. constructor; [reflexivity | constructor].
    + constructor; [split; reflexivity |]. constructor; [reflexivity |].
      constructor; [| constructor].
      unfold series_read. destruct (String.eqb (Str.lower inputformat) "text");
        split; reflexivity.
  - subst tr. unfold trace.
    rewrite (loadSeries_bad_format self datafile nkeys nvalues inputformat minPartitions
               conffile Hfmt).
    simpl. split; [lia | constructor].
Qed.

(** X5. The reading method is chosen by the lowercased tag alone: with a tag
    that lowercases to binary no run ever calls the text reading method, and
    with one that lowercases to text no run ever calls the binary one. *)
Theorem loadSeries_dispatch_exclusive
    (World : Type) (answer : forall X : Type, Ext X -> World -> (exn + X) * World)
    (self : ThunderContext) (datafile : string) (nkeys nvalues : pyval)
    (inputformat : string) (minPartitions : pyval) (conffile : string) (w : World) :
  let tr := trace World answer
              (loadSeries self datafile nkeys nvalues inputformat minPartitions conffile) w in
  (Str.lower inputformat = "binary" -> existsb is_fromText tr = false)
  /\ (Str.lower inputformat = "text" -> existsb is_fromBinary tr = false).
Proof.
  intros tr. split; intros Hfmt.
  - destruct (loadSeries_trace_shape World answer self datafile nkeys nvalues inputformat
                minPartitions conffile w) as [H | [(a & b & H) | (a & b & ld & H)]];
      [rewrite Hfmt; reflexivity | | |]; fold tr in H; rewrite H; try reflexivity.
    unfold series_read. rewrite Hfmt. reflexivity.
  - destruct (loadSeries_trace_shape World answer self datafile nkeys nvalues inputformat
                minPartitions conffile w) as [H | [(a & b & H) | (a & b & ld & H)]];
      [rewrite Hfmt; reflexivity | | |]; fold tr in H; rewrite H; try reflexivity.
    unfold series_read. rewrite Hfmt. reflexivity.
Qed.

Lemma loadSeries_dispatch_exclusive_witness :
  existsb is_fromText
    (trace nat (fixture_answer fx_noconf)
       (loadSeries local_ctx "d.bin" (PyInt 3) (PyInt 5) "Binary" PyNone "conf.json") 0%nat)
  = false
  /\ existsb is_fromBinary
       (trace nat (fixture_answer fx_noconf)
          (loadSeries local_ctx "d.txt" (PyInt 3) PyNone "TEXT" PyNone "conf.json") 0%nat)
     = false.
Proof.
  split.
  - apply (proj1 (loadSeries_dispatch_exclusive nat (fixture_answer fx_noconf) local_ctx
                    "d.bin" (PyInt 3) (PyInt 5) "Binary" PyNone "conf.json" 0%nat)).
    reflexivity.
  - apply (proj2 (loadSeries_dispatch_exclusive nat (fixture_answer fx_noconf) local_ctx
                    "d.txt" (PyInt 3) PyNone "TEXT" PyNone "conf.json" 0%nat)).
    reflexivity.
Defined.

(** ** Image loading *)

(** X6. With an accepted tag and the loader built, [loadImages] makes two
    calls: the loader with the caller's [dims], whatever the format, and the
    reading method of the lowercased tag ([fromStack] for stack, [fromTif]
    for tif, [fromPng] for png) on the given file; it ends as that method
    does. *)
Theorem loadImages_dispatch
    (World : Type) (answer : forall X : Type, Ext X -> World -> (exn + X) * World)
    (self : ThunderContext) (datafile : string) (dims : pyval) (inputformat : string)
    (ld : loader) (w w1 : World) :
  answer _ (ImagesLoader_new dims) w = (inr ld, w1) ->
  forall read : Ext RDD,
    (Str.lower inputformat = "stack" /\ read = ImagesLoader_fromStack ld datafile (_sc self))
    \/ (Str.lower inputformat = "tif" /\ read = ImagesLoader_fromTif ld datafile (_sc self))
    \/ (Str.lower inputformat = "png" /\ read = ImagesLoader_fromPng ld datafile (_sc self)) ->
    trace World answer (loadImages self datafile dims inputformat) w
    = Called (ImagesLoader_new dims) :: Called read :: nil
    /\ result World answer (loadImages self datafile dims inputformat) w
       = match fst (answer _ read w1) with
         | inl e => Failed e
         | inr r => Returned r
         end.
Proof.
  intros Hnew read Hread. unfold trace, result.
  assert (Hfmt : Str.mem (Str.lower inputformat) ("stack" :: "png" :: "tif" :: nil) = true)
    by (destruct Hread as [[-> _] | [[-> _] | [-> _]]]; reflexivity).
  rewrite (run_loadImages_accepted World answer self datafile dims inputformat w Hfmt).
  rewrite Hnew, run_call.
  assert (Hr : images_read inputformat ld datafile (_sc self) = read)
    by (unfold images_read; destruct Hread as [[-> ->] | [[-> ->] | [-> ->]]]; reflexivity).
  rewrite Hr. destruct (answer RDD read w1) as [[e | r] w2]; split; reflexivity.
Qed.

Lemma loadImages_dispatch_witness :
  trace nat (fixture_answer fx_noconf)
    (loadImages local_ctx "im" (PyTuple (64 :: 64 :: nil)%Z) "Tif") 0%nat
  = Called (ImagesLoader_new (PyTuple (64 :: 64 :: nil)%Z))
      :: Called (ImagesLoader_fromTif 0%nat "im" (_sc local_ctx)) :: nil
  /\ result nat (fixture_answer fx_noconf)
       (loadImages local_ctx "im" (PyTuple (64 :: 64 :: nil)%Z) "Tif") 0%nat
     = Returned some_data.
Proof.
  apply (loadImages_dispatch nat (fixture_answer fx_noconf) local_ctx "im"
           (PyTuple (64 :: 64 :: nil)%Z) "Tif" 0%nat 0%nat 1%nat eq_refl
           (ImagesLoader_fromTif 0%nat "im" (_sc local_ctx))).
  right; left. split; reflexivity.
Defined.

(** ** The remote example *)

(** X7. On the cluster (the master string contains [ec]), every dataset name
    other than the one known raises [NotImplementedError] with a message that
    quotes the name, and no call is made. *)
Theorem loadExampleEC2_unknown_dataset
    (World : Type) (answer : forall X : Type, Ext X -> World -> (exn + X) * World)
    (self : ThunderContext) (dataset : string) (w : World) :
  Str.contains "ec" (master (_sc self)) = true ->
  dataset <> "zebrafish-optomotor-response" ->
  run World answer (loadExampleEC2 self dataset) w
  = (nil, Raised (NotImplementedError (Some ("dataset '" ++ dataset ++ "' not availiable"))), w).
Proof.
  intros Hec Hd. unfold loadExampleEC2. rewrite Hec. simpl.
  apply String.eqb_neq in Hd. rewrite Hd. reflexivity.
Qed.

Lemma loadExampleEC2_unknown_dataset_witness :
  run nat (fixture_answer fx_noconf) (loadExampleEC2 ec2_ctx "iris") 0%nat
  = (nil, Raised (NotImplementedError (Some "dataset 'iris' not availiable")), 0%nat).
Proof.
  apply (loadExampleEC2_unknown_dataset nat (fixture_answer fx_noconf) ec2_ctx "iris" 0%nat);
    [reflexivity | discriminate].
Defined.

(** On the cluster, the known dataset is the text series load of the remote
    files followed by the fetch of the parameter file. *)
Lemma loadExampleEC2_zebrafish self :
  Str.contains "ec" (master (_sc self)) = true ->
  loadExampleEC2 self "zebrafish-optomotor-response"
  = (data <- loadSeries self zebrafish_data (PyInt 3) PyNone "text" (PyInt 1000) "conf.json" ;;
     paramfile <- call (sc_textFile (_sc self) zebrafish_params) ;;
     line <- call (rdd_first paramfile) ;;
     params <- call (json_loads line) ;;
     trials <- getitem params "trials" ;;
     modelfile <- call (asarray trials) ;;
     Ret (data, modelfile)).
Proof. intros Hec. unfold loadExampleEC2. rewrite Hec. reflexivity. Qed.

(** X8. On the cluster, when the series load of the known dataset returns a
    collection and the parameter file is fetched, decoded and has [trials],
    [loadExampleEC2] returns that collection paired with the array made from
    [trials]; after the calls of the series load it calls [textFile] on the
    parameter file, [first], [json.loads] and [asarray], in that order. *)
Theorem loadExampleEC2_returns_data_and_trials
    (World : Type) (answer : forall X : Type, Ext X -> World -> (exn + X) * World)
    (self : ThunderContext) (tr : list event) (data : RDD) (lines : list string)
    (line : string) (params : gmap string pyval) (trials : pyval) (modelfile : ndarray)
    (w w1 w2 w3 w4 w5 : World) :
  Str.contains "ec" (master (_sc self)) = true ->
  run World answer
    (loadSeries self zebrafish_data (PyInt 3) PyNone "text" (PyInt 1000) "conf.json") w
  = (tr, Returned data, w1) ->
  answer _ (sc_textFile (_sc self) zebrafish_params) w1 = (inr lines, w2) ->
  answer _ (rdd_first lines) w2 = (inr line, w3) ->
  answer _ (json_loads line) w3 = (inr params, w4) ->
  params !! "trials" = Some trials ->
  answer _ (asarray trials) w4 = (inr modelfile, w5) ->
  run World answer (loadExampleEC2 self "zebrafish-optomotor-response") w
  = ((tr ++ Called (sc_textFile (_sc self) zebrafish_params)
          :: Called (rdd_first lines)
          :: Called (json_loads line)
          :: Called (asarray trials) :: nil)%list,
     Returned (data, modelfile), w5).
Proof.
  intros Hec Hseries Htf Hfirst Hjson Htrials Harr.
  rewrite (loadExampleEC2_zebrafish self Hec), run_bind, Hseries.
  unfold getitem. simpl. rewrite Htf, Hfirst, Hjson, Htrials. simpl. rewrite Harr.
  reflexivity.
Qed.

Lemma loadExampleEC2_returns_data_and_trials_witness :
  run nat (cluster_answer {[ "trials" := PyTuple (1 :: 2 :: 1 :: nil)%Z ]})
    (loadExampleEC2 ec2_ctx "zebrafish-optomotor-response") 0%nat
  = ((Called (SeriesLoader_loadConf zebrafish_data "conf.json")
        :: Called (SeriesLoader_new (PyInt 3) PyNone (PyInt 1000))
        :: Called (SeriesLoader_fromText 0%nat zebrafish_data (_sc ec2_ctx)) :: nil)
     ++ Called (sc_textFile (_sc ec2_ctx) zebrafish_params)
        :: Called (rdd_first ("{...}" :: nil))
        :: Called (json_loads "{...}")
        :: Called (asarray (PyTuple (1 :: 2 :: 1 :: nil)%Z)) :: nil,
     Returned (some_data, trials_array), 1%nat)%list.
Proof.
  apply (loadExampleEC2_returns_data_and_trials nat
           (cluster_answer {[ "trials" := PyTuple (1 :: 2 :: 1 :: nil)%Z ]}) ec2_ctx
           _ some_data ("{...}" :: nil) "{...}"
           {[ "trials" := PyTuple (1 :: 2 :: 1 :: nil)%Z ]} (PyTuple (1 :: 2 :: 1 :: nil)%Z)
           trials_array 0%nat 1%nat 1%nat 1%nat 1%nat 1%nat); reflexivity.
Defined.

(** X9. On the cluster, a parameter file whose decoded object has no
    [trials] makes [loadExampleEC2] raise [KeyError] on [trials]; this comes
    after the series load has returned and the parameter file has been
    fetched and decoded, and [asarray] is not called. *)
Theorem loadExampleEC2_missing_trials
    (World : Type) (answer : forall X : Type, Ext X -> World -> (exn + X) * World)
    (self : ThunderContext) (tr : list event) (data : RDD) (lines : list string)
    (line : string) (params : gmap string pyval) (w w1 w2 w3 w4 : World) :
  Str.contains "ec" (master (_sc self)) = true ->
  run World answer
    (loadSeries self zebrafish_data (PyInt 3) PyNone "text" (PyInt 1000) "conf.json") w
  = (tr, Returned data, w1) ->
  answer _ (sc_textFile (_sc self) zebrafish_params) w1 = (inr lines, w2) ->
  answer _ (rdd_first lines) w2 = (inr line, w3) ->
  answer _ (json_loads line) w3 = (inr params, w4) ->
  params !! "trials" = None ->
  run World answer (loadExampleEC2 self "zebrafish-optomotor-response") w
  = ((tr ++ Called (sc_textFile (_sc self) zebrafish_params)
          :: Called (rdd_first lines)
          :: Called (json_loads line) :: nil)%list,
     Raised (KeyError "trials"), w4).
Proof.
  intros Hec Hseries Htf Hfirst Hjson Htrials.
  rewrite (loadExampleEC2_zebrafish self Hec), run_bind, Hseries.
  unfold getitem. simpl. rewrite Htf, Hfirst, Hjson, Htrials. reflexivity.
Qed.

Lemma loadExampleEC2_missing_trials_witness :
  run nat (cluster_answer ∅) (loadExampleEC2 ec2_ctx "zebrafish-optomotor-response") 0%nat
  = ((Called (SeriesLoader_loadConf zebrafish_data "conf.json")
        :: Called (SeriesLoader_new (PyInt 3) PyNone (PyInt 1000))
        :: Called (SeriesLoader_fromText 0%nat zebrafish_data (_sc ec2_ctx)) :: nil)
     ++ Called (sc_textFile (_sc ec2_ctx) zebrafish_params)
        :: Called (rdd_first ("{...}" :: nil))
        :: Called (json_loads "{...}") :: nil,
     Raised (KeyError "trials"), 1%nat)%list.
Proof.
  apply (loadExampleEC2_missing_trials nat (cluster_answer ∅) ec2_ctx
           _ some_data ("{...}" :: nil) "{...}" ∅ 0%nat 1%nat 1%nat 1%nat 1%nat);
    reflexivity.
Defined.

(** X10. On the cluster, when the series load of the known dataset does not
    return a collection, [loadExampleEC2] stops there with the same calls and
    the same exception: the parameter file is not fetched. *)
Theorem loadExampleEC2_stops_with_series_load
    (World : Type) (answer : forall X : Type, Ext X -> World -> (exn + X) * World)
    (self : ThunderContext) (w : World) :
  Str.contains "ec" (master (_sc self)) = true ->
  forall (tr : list event) (o : outcome RDD) (w1 : World),
    run World answer
      (loadSeries self zebrafish_data (PyInt 3) PyNone "text" (PyInt 1000) "conf.json") w
    = (tr, o, w1) ->
    (forall e : exn, o = Raised e ->
       run World answer (loadExampleEC2 self "zebrafish-optomotor-response") w
       = (tr, Raised e, w1))
    /\ (forall e : exn, o = Failed e ->
          run World answer (loadExampleEC2 self "zebrafish-optomotor-response") w
          = (tr, Failed e, w1))
    /\ ((forall r : RDD, o <> Returned r) ->
        existsb is_paramfile_call
          (trace World answer (loadExampleEC2 self "zebrafish-optomotor-response") w)
        = false).
Proof.
  intros Hec tr o w1 Hseries.
  assert (Hrun : forall B (f : RDD -> Prog B),
            run World answer
              (bind (loadSeries self zebrafish_data (PyInt 3) PyNone "text" (PyInt 1000)
                       "conf.json") f) w
            = match o with
              | Returned a =>
                  let '(tr', o', w'') := run World answer (f a) w1 in
                  ((tr ++ tr')%list, o', w'')
              | Raised e => (tr, Raised e, w1)
              | Failed e => (tr, Failed e, w1)
              end)
    by (intros B f; rewrite run_bind, Hseries; reflexivity).
  rewrite (loadExampleEC2_zebrafish self Hec).
  split; [| split].
  - intros e ->. apply Hrun.
  - intros e ->. apply Hrun.
  - intros Hnot. unfold trace. rewrite Hrun.
    pose proof (loadSeries_trace_shape World answer self zebrafish_data (PyInt 3) PyNone
                  "text" (PyInt 1000) "conf.json" w eq_refl) as Hshape.
    unfold trace in Hshape. rewrite Hseries in Hshape. simpl in Hshape.
    destruct o as [r | e | e]; [destruct (Hnot r eq_refl) | |]; simpl;
      destruct Hshape as [-> | [(a & b & ->) | (a & b & ld & ->)]]; reflexivity.
Qed.

Lemma loadExampleEC2_stops_with_series_load_witness :
  run nat (fixture_answer fx_conf_nvalues)
    (loadExampleEC2 ec2_ctx "zebrafish-optomotor-response") 0%nat
  = (Called (SeriesLoader_loadConf zebrafish_data "conf.json") :: nil,
     Raised (KeyError "nkeys"), 0%nat)
  /\ existsb is_paramfile_call
       (trace nat (fixture_answer fx_conf_nvalues)
          (loadExampleEC2 ec2_ctx "zebrafish-optomotor-response") 0%nat)
     = false.
Proof.
  pose proof (loadExampleEC2_stops_with_series_load nat (fixture_answer fx_conf_nvalues)
                ec2_ctx 0%nat eq_refl
                (Called (SeriesLoader_loadConf zebrafish_data "conf.json") :: nil)
                (Raised (KeyError "nkeys")) 0%nat eq_refl) as (Hraise & _ & Hno).
  split.
  - apply (Hraise (KeyError "nkeys") eq_refl).
  - apply Hno. discriminate.
Defined.

(** ** Matrix files, further *)



Lemma zip_fst_firstn {A B : Type} (a : list A) (b : list B) :
  map fst (zip a b) = firstn (length b) a.
Proof.
  revert b. induction a as [| x a IH]; intros [| y b]; simpl; try reflexivity.
  f_equal. apply IH.
Qed.

Lemma zip_snd_firstn {A B : Type} (a : list A) (b : list B) :
  map snd (zip a b) = firstn (length a) b.
Proof.
  revert b. induction a as [| x a IH]; intros [| y b]; simpl; try reflexivity.
  f_equal. apply IH.
Qed.

Lemma length_zip {A B : Type} (a : list A) (b : list B) :
  length (zip a b) = Nat.min (length a) (length b).
Proof.
  revert b. induction a as [| x a IH]; intros [| y b]; simpl; try reflexivity.
  f_equal. apply IH.
Qed.

(** Rows of an array of two or more dimensions can each be made a tuple. *)
Lemma mapP_key_rows (m : nat) (rest : list nat) (l : list ndarray) :
  Forall (fun x => shape x = m :: rest) l ->
  mapP (fun x => t <- iterate x ;; Ret (KTuple t)) l
  = Ret (map (key_of_row (m :: rest)) l).
Proof.
  induction 1 as [| x l Hx _ IH]; simpl; [reflexivity |].
  unfold iterate at 1. rewrite Hx. simpl. rewrite IH. reflexivity.
Qed.

Lemma rows_of_shape (n : nat) (rest : list nat) (elts : list scalar) :
  Forall (fun x => shape x = rest) (rows_of n rest elts).
Proof.
  unfold rows_of. induction (seq 0 n) as [| i l IH]; simpl; constructor; auto.
Qed.

(** With a key file, a load of a variable of one or two dimensions reads
    both files, pairs the key rows with the data rows and hands the pairs to
    the engine. *)
Lemma run_loadMatLocal_keys
    (World : Type) (answer : forall X : Type, Ext X -> World -> (exn + X) * World)
    self datafile varname kf filter minPartitions
    (vars kvars : gmap string ndarray) (data karr : ndarray) n rest kn km krest
    (w w1 w2 : World) :
  kf <> "" ->
  answer _ (loadmat datafile) w = (inr vars, w1) ->
  vars !! varname = Some data ->
  shape data = n :: rest ->
  (length rest <= 1)%nat ->
  answer _ (loadmat kf) w1 = (inr kvars, w2) ->
  kvars !! "keys" = Some karr ->
  shape karr = kn :: km :: krest ->
  let par := sc_parallelize (_sc self)
               (keyed_rows kn (km :: krest) (flat karr) n rest (flat data)) minPartitions in
  run World answer (loadMatLocal self datafile varname (Some kf) filter minPartitions) w =
  match answer _ par w2 with
  | (inl e, w3) =>
      (Called (loadmat datafile) :: Called (loadmat kf) :: Called par :: nil, Failed e, w3)
  | (inr rdd, w3) =>
      let '(tr, o, w4) := run World answer (preprocess rdd filter) w3 in
      (Called (loadmat datafile) :: Called (loadmat kf) :: Called par :: tr, o, w4)
  end.
Proof.
  intros Hkf Hload Hvar Hshape Hdim Hkload Hkeys Hkshape par. subst par.
  destruct kf as [| c r]; [congruence |].
  unfold loadMatLocal, getitem, ndim, keyed_rows. simpl.
  rewrite Hload, Hvar. simpl. rewrite Hshape.
  replace (2 <? length (n :: rest))%nat with false
    by (symmetry; apply Nat.ltb_ge; simpl; lia).
  simpl. rewrite Hkload, Hkeys. simpl.
  unfold iterate at 1. rewrite Hkshape. simpl.
  rewrite (mapP_key_rows km krest) by apply rows_of_shape.
  simpl. unfold iterate. rewrite Hshape. simpl.
  match goal with |- context [answer ?X ?c ?w] => destruct (answer X c w) as [[e | rdd] w3] end;
    [reflexivity |].
  destruct (run World answer (preprocess rdd filter) w3) as [[tr o] w4]. reflexivity.
Qed.

(** X12. With a key file whose [keys] array has [kn] rows of two or more
    dimensions and data of [n] rows, [loadMatLocal] reads the data file and
    then the key file and hands the engine the pairs of key row and data row
    up to the shorter of the two: [min kn n] pairs, the first keys with the
    first rows.  The surplus of either side is dropped and the module raises
    nothing for it; with no filter the load ends as the engine call does,
    with its collection or with its exception. *)
Theorem loadMatLocal_key_file_pairs
    (World : Type) (answer : forall X : Type, Ext X -> World -> (exn + X) * World)
    (self : ThunderContext) (datafile varname kf : string) (minPartitions : pyval)
    (vars kvars : gmap string ndarray) (data karr : ndarray)
    (n : nat) (rest : list nat) (kn km : nat) (krest : list nat) (w w1 w2 : World) :
  kf <> "" ->
  answer _ (loadmat datafile) w = (inr vars, w1) ->
  vars !! varname = Some data ->
  shape data = n :: rest ->
  (length rest <= 1)%nat ->
  answer _ (loadmat kf) w1 = (inr kvars, w2) ->
  kvars !! "keys" = Some karr ->
  shape karr = kn :: km :: krest ->
  let pairs := keyed_rows kn (km :: krest) (flat karr) n rest (flat data) in
  let par := sc_parallelize (_sc self) pairs minPartitions in
  length pairs = Nat.min kn n
  /\ map fst pairs
     = firstn n (map (key_of_row (km :: krest)) (rows_of kn (km :: krest) (flat karr)))
  /\ map snd pairs = firstn kn (rows_of n rest (flat data))
  /\ run World answer (loadMatLocal self datafile varname (Some kf) None minPartitions) w
     = (Called (loadmat datafile) :: Called (loadmat kf) :: Called par :: nil,
        match fst (answer _ par w2) with
        | inl e => Failed e
        | inr rdd => Returned rdd
        end,
        snd (answer _ par w2)).
Proof.
  intros Hkf Hload Hvar Hshape Hdim Hkload Hkeys Hkshape pairs par.
  split; [| split; [| split]].
  - subst pairs. unfold keyed_rows.
    rewrite length_zip, length_map, !length_rows_of. reflexivity.
  - subst pairs. unfold keyed_rows. rewrite zip_fst_firstn, length_rows_of. reflexivity.
  - subst pairs. unfold keyed_rows.
    rewrite zip_snd_firstn, length_map, length_rows_of. reflexivity.
  - pose proof (run_loadMatLocal_keys World answer self datafile varname kf None minPartitions
                  vars kvars data karr n rest kn km krest w w1 w2 Hkf Hload Hvar Hshape Hdim
                  Hkload Hkeys Hkshape) as Hrun.
    cbv zeta in Hrun. fold pairs in Hrun. fold par in Hrun. rewrite Hrun.
    destruct (answer RDD par w2) as [[e | rdd] w3]; reflexivity.
Qed.

Lemma loadMatLocal_key_file_pairs_witness :
  length (keyed_rows 3 (2%nat :: nil) (flat keys_3x2) 2 (2%nat :: nil) (flat arr_2x2))
  = Nat.min 3 2
  /\ map fst (keyed_rows 3 (2%nat :: nil) (flat keys_3x2) 2 (2%nat :: nil) (flat arr_2x2))
     = firstn 2 (map (key_of_row (2%nat :: nil)) (rows_of 3 (2%nat :: nil) (flat keys_3x2)))
  /\ map snd (keyed_rows 3 (2%nat :: nil) (flat keys_3x2) 2 (2%nat :: nil) (flat arr_2x2))
     = firstn 3 (rows_of 2 (2%nat :: nil) (flat arr_2x2))
  /\ run nat (fixture_answer fx_keys)
       (loadMatLocal local_ctx "flat.mat" "x" (Some "k3.mat") None (PyInt 1)) 0%nat
     = (Called (loadmat "flat.mat") :: Called (loadmat "k3.mat")
          :: Called (sc_parallelize (_sc local_ctx)
                       (keyed_rows 3 (2%nat :: nil) (flat keys_3x2) 2 (2%nat :: nil)
                          (flat arr_2x2)) (PyInt 1)) :: nil,
        Returned (mk_RDD (keyed_rows 3 (2%nat :: nil) (flat keys_3x2) 2 (2%nat :: nil)
                            (flat arr_2x2)) (PyInt 1)),
        0%nat).
Proof.
  apply (loadMatLocal_key_file_pairs nat (fixture_answer fx_keys) local_ctx "flat.mat" "x"
           "k3.mat" (PyInt 1) {[ "x" := arr_2x2 ]} {[ "keys" := keys_3x2 ]} arr_2x2 keys_3x2
           2%nat (2%nat :: nil) 3%nat 2%nat nil 0%nat 0%nat 0%nat);
    first [reflexivity | discriminate | cbv; lia].
Defined.

(** X13. A key file that has no variable named [keys] makes [loadMatLocal]
    raise [KeyError] on [keys], after both files have been read. *)
Theorem loadMatLocal_key_file_without_keys
    (World : Type) (answer : forall X : Type, Ext X -> World -> (exn + X) * World)
    (self : ThunderContext) (datafile varname kf : string) (filter : option string)
    (minPartitions : pyval) (vars kvars : gmap string ndarray) (data : ndarray)
    (w w1 w2 : World) :
  kf <> "" ->
  answer _ (loadmat datafile) w = (inr vars, w1) ->
  vars !! varname = Some data ->
  (ndim data <= 2)%nat ->
  answer _ (loadmat kf) w1 = (inr kvars, w2) ->
  kvars !! "keys" = None ->
  run World answer (loadMatLocal self datafile varname (Some kf) filter minPartitions) w
  = (Called (loadmat datafile) :: Called (loadmat kf) :: nil, Raised (KeyError "keys"), w2).
Proof.
  intros Hkf Hload Hvar Hdim Hkload Hkeys.
  destruct kf as [| c r]; [congruence |].
  unfold loadMatLocal, getitem. simpl. rewrite Hload, Hvar. simpl.
  replace (2 <? ndim data)%nat with false by (symmetry; apply Nat.ltb_ge; lia).
  simpl. rewrite Hkload, Hkeys. reflexivity.
Qed.

Lemma loadMatLocal_key_file_without_keys_witness :
  run nat (fixture_answer fx_keys)
    (loadMatLocal local_ctx "flat.mat" "x" (Some "nokeys.mat") None (PyInt 1)) 0%nat
  = (Called (loadmat "flat.mat") :: Called (loadmat "nokeys.mat") :: nil,
     Raised (KeyError "keys"), 0%nat).
Proof.
  apply (loadMatLocal_key_file_without_keys nat (fixture_answer fx_keys) local_ctx "flat.mat"
           "x" "nokeys.mat" None (PyInt 1) {[ "x" := arr_2x2 ]} {[ "other" := keys_3x2 ]}
           arr_2x2 0%nat 0%nat 0%nat);
    first [reflexivity | discriminate | cbv; lia].
Defined.

(** Cutting a list of [n * sz] elements into [n] runs of [sz] and putting the
    runs back together gives the list. *)
Lemma concat_runs {A : Type} (sz n : nat) (l : list A) :
  length l = (n * sz)%nat ->
  concat (map (fun i => firstn sz (skipn (i * sz) l)) (seq 0 n)) = l.
Proof.
  revert l. induction n as [| n IH]; intros l Hl.
  - destruct l; [reflexivity | discriminate].
  - change (seq 0 (S n)) with (0%nat :: seq 1 n).
    rewrite <- seq_shift, map_cons, map_map.
    change (concat (?x :: ?r)) with (x ++ concat r)%list.
    change (skipn (0 * sz) l) with l.
    transitivity (firstn sz l ++ skipn sz l)%list; [| apply firstn_skipn].
    f_equal.
    etransitivity; [| apply (IH (skipn sz l)); rewrite length_skipn, Hl; simpl; lia].
    f_equal. apply map_ext. intros i. rewrite skipn_skipn.
    replace (S i * sz)%nat with (i * sz + sz)%nat by lia. reflexivity.
Qed.

(** X15. With no key file, what [loadMatLocal] hands to the engine holds
    the matrix row by row: every value has the shape of a row, and for an
    array that holds as many elements as its shape says, the values laid end
    to end are the elements of the array, none lost, repeated or moved.  With
    no filter either, the load ends as the engine call does, with its
    collection as it is or with its exception. *)
Theorem loadMatLocal_rows_hold_the_data
    (World : Type) (answer : forall X : Type, Ext X -> World -> (exn + X) * World)
    (self : ThunderContext) (datafile varname : string) (minPartitions : pyval)
    (vars : gmap string ndarray) (data : ndarray) (n : nat) (rest : list nat)
    (w w1 : World) :
  answer _ (loadmat datafile) w = (inr vars, w1) ->
  vars !! varname = Some data ->
  shape data = n :: rest ->
  (length rest <= 1)%nat ->
  length (flat data) = size_of (shape data) ->
  let pairs := indexed_rows n rest (flat data) in
  let par := sc_parallelize (_sc self) pairs minPartitions in
  Forall (fun v => shape v = rest) (map snd pairs)
  /\ concat (map flat (map snd pairs)) = flat data
  /\ run World answer (loadMatLocal self datafile varname None None minPartitions) w
     = (Called (loadmat datafile) :: Called par :: nil,
        match fst (answer _ par w1) with
        | inl e => Failed e
        | inr rdd => Returned rdd
        end,
        snd (answer _ par w1)).
Proof.
  intros Hload Hvar Hshape Hdim Hsize pairs par.
  split; [| split].
  - subst pairs. rewrite values_indexed_rows. apply rows_of_shape.
  - subst pairs. rewrite values_indexed_rows. unfold rows_of. rewrite map_map. simpl.
    apply concat_runs. rewrite Hsize, Hshape. reflexivity.
  - pose proof (run_loadMatLocal_nokeys World answer self datafile varname None None
                  minPartitions vars data n rest w w1 Hload Hvar Hshape Hdim eq_refl) as Hrun.
    cbv zeta in Hrun. fold pairs in Hrun. fold par in Hrun. rewrite Hrun.
    destruct (answer RDD par w1) as [[e | rdd] w2]; reflexivity.
Qed.

Lemma loadMatLocal_rows_hold_the_data_witness :
  Forall (fun v => shape v = 2%nat :: nil)
    (map snd (indexed_rows 2 (2%nat :: nil) (flat arr_2x2)))
  /\ concat (map flat (map snd (indexed_rows 2 (2%nat :: nil) (flat arr_2x2))))
     = SInt 10 :: SInt 20 :: SInt 30 :: SInt 40 :: nil
  /\ run nat (fixture_answer fx_noconf)
       (loadMatLocal local_ctx "flat.mat" "x" None None (PyInt 1)) 0%nat
     = (Called (loadmat "flat.mat")
          :: Called (sc_parallelize (_sc local_ctx)
                       (indexed_rows 2 (2%nat :: nil) (flat arr_2x2)) (PyInt 1)) :: nil,
        Returned (mk_RDD (indexed_rows 2 (2%nat :: nil) (flat arr_2x2)) (PyInt 1)),
        0%nat).
Proof.
  apply (loadMatLocal_rows_hold_the_data nat (fixture_answer fx_noconf) local_ctx "flat.mat"
           "x" (PyInt 1) {[ "x" := arr_2x2 ]} arr_2x2 2%nat (2%nat :: nil) 0%nat 0%nat);
    first [reflexivity | cbv; lia].
Defined.

(** X16. With no key file and a filter given by a non-empty name,
    [loadMatLocal] looks the transform up only after the engine has taken the
    rows: when the engine refuses them its exception is passed on and no
    lookup is made; when it gives a collection and the transform is found,
    the load returns that collection with every value passed through the
    transform, and if the collection is that of the pairs handed over, its
    values are the transformed rows in row order under the keys [1], ...,
    [n]. *)
Theorem loadMatLocal_filter_transforms_rows
    (World : Type) (answer : forall X : Type, Ext X -> World -> (exn + X) * World)
    (self : ThunderContext) (datafile varname m : string) (minPartitions : pyval)
    (vars : gmap string ndarray) (data : ndarray) (n : nat) (rest : list nat)
    (w w1 : World) :
  m <> "" ->
  answer _ (loadmat datafile) w = (inr vars, w1) ->
  vars !! varname = Some data ->
  shape data = n :: rest ->
  (length rest <= 1)%nat ->
  let pairs := indexed_rows n rest (flat data) in
  let par := sc_parallelize (_sc self) pairs minPartitions in
  (forall (e : exn) (w2 : World),
     answer _ par w1 = (inl e, w2) ->
     run World answer (loadMatLocal self datafile varname None (Some m) minPartitions) w
     = (Called (loadmat datafile) :: Called par :: nil, Failed e, w2))
  /\ (forall (rdd : RDD) (f : ndarray -> ndarray) (w2 w3 : World),
        answer _ par w1 = (inr rdd, w2) ->
        answer _ (PreProcessor_new m) w2 = (inr f, w3) ->
        run World answer (loadMatLocal self datafile varname None (Some m) minPartitions) w
        = (Called (loadmat datafile) :: Called par :: Called (PreProcessor_new m) :: nil,
           Returned (mapValues f rdd), w3)
        /\ values (mapValues f rdd) = map f (values rdd)
        /\ keys (mapValues f rdd) = keys rdd
        /\ (records rdd = pairs ->
            values (mapValues f rdd) = map f (rows_of n rest (flat data))
            /\ keys (mapValues f rdd) = map (fun i => KInt (Z.of_nat i)) (seq 1 n))).
Proof.
  intros Hm Hload Hvar Hshape Hdim pairs par.
  destruct m as [| c r]; [congruence |].
  pose proof (run_loadMatLocal_nokeys World answer self datafile varname None
                (Some (String c r)) minPartitions vars data n rest w w1 Hload Hvar Hshape
                Hdim eq_refl) as Hrun.
  cbv zeta in Hrun. fold pairs in Hrun. fold par in Hrun.
  split.
  - intros e w2 Hpar. rewrite Hrun, Hpar. reflexivity.
  - intros rdd f w2 w3 Hpar Hf. rewrite Hrun, Hpar. simpl. rewrite Hf.
    split; [reflexivity |]. split; [apply values_mapValues |].
    split; [apply keys_mapValues |].
    intros Hrec. rewrite values_mapValues, keys_mapValues. unfold values, keys.
    rewrite Hrec. subst pairs. rewrite values_indexed_rows, keys_indexed_rows.
    split; reflexivity.
Qed.

Lemma loadMatLocal_filter_transforms_rows_witness :
  run nat (fixture_answer fx_noconf)
    (loadMatLocal local_ctx "flat.mat" "x" None (Some "blank") (PyInt 0)) 0%nat
  = (Called (loadmat "flat.mat")
       :: Called (sc_parallelize (_sc local_ctx)
                    (indexed_rows 2 (2%nat :: nil) (flat arr_2x2)) (PyInt 0)) :: nil,
     Failed (OtherError "ZeroDivisionError" "integer division or modulo by zero"), 0%nat)
  /\ run nat (fixture_answer fx_noconf)
       (loadMatLocal local_ctx "flat.mat" "x" None (Some "blank") (PyInt 4)) 0%nat
     = (Called (loadmat "flat.mat")
          :: Called (sc_parallelize (_sc local_ctx)
                       (indexed_rows 2 (2%nat :: nil) (flat arr_2x2)) (PyInt 4))
          :: Called (PreProcessor_new "blank") :: nil,
        Returned (mapValues blank
                    (mk_RDD (indexed_rows 2 (2%nat :: nil) (flat arr_2x2)) (PyInt 4))),
        0%nat).
Proof.
  split.
  - apply (proj1 (loadMatLocal_filter_transforms_rows nat (fixture_answer fx_noconf)
                    local_ctx "flat.mat" "x" "blank" (PyInt 0) {[ "x" := arr_2x2 ]} arr_2x2
                    2%nat (2%nat :: nil) 0%nat 0%nat ltac:(discriminate) eq_refl eq_refl
                    eq_refl ltac:(cbv; lia))).
    reflexivity.
  - apply (proj2 (loadMatLocal_filter_transforms_rows nat (fixture_answer fx_noconf)
                    local_ctx "flat.mat" "x" "blank" (PyInt 4) {[ "x" := arr_2x2 ]} arr_2x2
                    2%nat (2%nat :: nil) 0%nat 0%nat ltac:(discriminate) eq_refl eq_refl
                    eq_refl ltac:(cbv; lia))
             (mk_RDD (indexed_rows 2 (2%nat :: nil) (flat arr_2x2)) (PyInt 4)) blank
             0%nat 0%nat); reflexivity.
Defined.

(** ** Preprocessing, further *)

(** X17. Whatever the method and whatever the world, a collection that
    [preprocess] returns has the keys of the input in the same order, as many
    records, and the same number of slices. *)
Theorem preprocess_keeps_keys_and_slices
    (World : Type) (answer : forall X : Type, Ext X -> World -> (exn + X) * World)
    (data out : RDD) (method : option string) (w : World) :
  result World answer (preprocess data method) w = Returned out ->
  keys out = keys data
  /\ length (records out) = length (records data)
  /\ numSlices out = numSlices data.
Proof.
  unfold result. destruct method as [[| c r] |]; simpl.
  - intros H. injection H as <-. auto.
  - destruct (answer _ (PreProcessor_new (String c r)) w) as [[e | f] w1]; simpl;
      [discriminate |].
    intros H. injection H as <-. split; [apply keys_mapValues |].
    split; [| reflexivity]. unfold mapValues. simpl. apply length_map.
  - intros H. injection H as <-. auto.
Qed.

Lemma preprocess_keeps_keys_and_slices_witness :
  keys (mapValues blank some_data) = keys some_data
  /\ length (records (mapValues blank some_data)) = length (records some_data)
  /\ numSlices (mapValues blank some_data) = numSlices some_data.
Proof.
  apply (preprocess_keeps_keys_and_slices nat (fixture_answer fx_noconf) some_data
           (mapValues blank some_data) (Some "blank") 0%nat).
  reflexivity.
Defined.

(** X18. [preprocess] looks a transform up exactly when the method is a
    non-empty string: for [None] and for the empty string it returns the
    collection as it is and makes no call; for a non-empty name its one call
    is the lookup of that name, and when the lookup fails the exception is
    passed on and no collection is returned. *)
Theorem preprocess_lookup_only_for_a_name
    (World : Type) (answer : forall X : Type, Ext X -> World -> (exn + X) * World)
    (data : RDD) (method : option string) (w : World) :
  (truthy method = false ->
   run World answer (preprocess data method) w = (nil, Returned data, w))
  /\ (forall m : string, method = Some m -> m <> "" ->
      trace World answer (preprocess data method) w = Called (PreProcessor_new m) :: nil
      /\ forall (e : exn) (w1 : World),
           answer _ (PreProcessor_new m) w = (inl e, w1) ->
           run World answer (preprocess data method) w
           = (Called (PreProcessor_new m) :: nil, Failed e, w1)).
Proof.
  split.
  - destruct method as [[| c r] |]; simpl; intros H; try discriminate H; reflexivity.
  - intros m -> Hm. destruct m as [| c r]; [congruence |]. unfold trace. simpl.
    destruct (answer _ (PreProcessor_new (String c r)) w) as [[e | f] w1] eqn:Ha; simpl.
    + split; [reflexivity |]. intros e' w1' H. injection H as <- <-. reflexivity.
    + split; [reflexivity |]. intros e' w1' H. discriminate H.
Qed.

Lemma preprocess_lookup_only_for_a_name_witness :
  run nat (fixture_answer fx_noconf) (preprocess some_data (Some "")) 0%nat
  = (nil, Returned some_data, 0%nat)
  /\ run nat (fixture_answer fx_noconf) (preprocess some_data (Some "zscore")) 0%nat
     = (Called (PreProcessor_new "zscore") :: nil,
        Failed (OtherError "UnboundLocalError" "func"), 0%nat).
Proof.
  split.
  - apply (proj1 (preprocess_lookup_only_for_a_name nat (fixture_answer fx_noconf) some_data
                    (Some "") 0%nat)).
    reflexivity.
  - apply (proj2 (preprocess_lookup_only_for_a_name nat (fixture_answer fx_noconf) some_data
                    (Some "zscore") 0%nat) "zscore" eq_refl);
      [discriminate | reflexivity].
Defined.

(** ** The bundled examples, further *)

(** X19. A configuration file found beside a bundled example replaces the
    defaults of [loadExample]: the one loader built has the file's [nkeys]
    and [nvalues] in place of 3 and [None], and [minPartitions] is still 1. *)
Theorem loadExample_conf_replaces_defaults
    (World : Type) (answer : forall X : Type, Ext X -> World -> (exn + X) * World)
    (module_dir : string) (self : ThunderContext) (dataset : string)
    (params : gmap string pyval) (k v : pyval) (w w1 : World) :
  dataset = "iris" \/ dataset = "fish" ->
  answer _ (SeriesLoader_loadConf
              (Str.path_join module_dir ("data/" ++ dataset ++ ".txt")) "conf.json") w
  = (inr (Some params), w1) ->
  params !! "nkeys" = Some k ->
  params !! "nvalues" = Some v ->
  List.filter is_SeriesLoader_new
    (trace World answer (loadExample module_dir self dataset) w)
  = Called (SeriesLoader_new k v (PyInt 1)) :: nil.
Proof.
  intros Hd Hconf Hk Hv.
  set (file := Str.path_join module_dir ("data/" ++ dataset ++ ".txt")) in *.
  assert (Hrun : loadExample module_dir self dataset
                 = loadSeries self file (PyInt 3) PyNone "text" (PyInt 1) "conf.json")
    by (subst file; destruct Hd as [-> | ->]; reflexivity).
  rewrite Hrun. unfold trace.
  rewrite (run_loadSeries_conf World answer self file (PyInt 3) PyNone "text" (PyInt 1)
             "conf.json" params k v w w1 eq_refl Hconf Hk Hv).
  destruct (answer _ (SeriesLoader_new k v (PyInt 1)) w1) as [[e | ld] w2];
    [reflexivity |].
  rewrite run_call. unfold series_read. simpl.
  destruct (answer _ (SeriesLoader_fromText ld file (_sc self)) w2) as [[e | r] w3];
    reflexivity.
Qed.

Lemma loadExample_conf_replaces_defaults_witness :
  List.filter is_SeriesLoader_new
    (trace nat (fixture_answer fx_conf_full) (loadExample "/opt/thunder/utils" local_ctx "fish")
       0%nat)
  = Called (SeriesLoader_new (PyInt 2) (PyInt 240) (PyInt 1)) :: nil.
Proof.
  apply (loadExample_conf_replaces_defaults nat (fixture_answer fx_conf_full)
           "/opt/thunder/utils" local_ctx "fish"
           {[ "nkeys" := PyInt 2 ; "nvalues" := PyInt 240 ]} (PyInt 2) (PyInt 240)
           0%nat 0%nat); first [reflexivity | right; reflexivity].
Defined.
